(** * Wedding WhatsApp RSVP bot: guest lifecycle and matching engine

    A shallow embedding of the Go sources

      - [internal/models/guest.go]     (the guest record),
      - [internal/storage/storage.go]  (the guest store),
      - [internal/whatsapp]            ([NormalizePhoneNumber], [handleMessage]),
      - [internal/handler]             ([HandleMessage], [SendInvitation], [containsAny]),

    followed by the properties of the specification that concern them.

    Go strings are byte sequences; they are modelled by [string], whose
    characters are the 8-bit [ascii] values, so that a UTF-8 glyph is the
    sequence of its bytes exactly as [strings.Contains] sees it. *)

From Stdlib Require Import ZArith Ascii String.
From stdpp Require Import base decidable option list strings gmap.

Local Open Scope Z_scope.

(** ** The fragment of Go's [strings] package used by the program *)

Module GoStrings.

(** [strings.HasPrefix(s, prefix)]. *)
Fixpoint HasPrefix (s prefix : string) {struct prefix} : bool :=
  match prefix with
  | EmptyString => true
  | String p prefix' =>
      match s with
      | EmptyString => false
      | String c s' => if Ascii.eqb c p then HasPrefix s' prefix' else false
      end
  end.

(** [strings.Contains(s, substr)]: [substr] occurs at some offset of [s]. *)
Fixpoint Contains (s substr : string) : bool :=
  HasPrefix s substr ||
  match s with
  | EmptyString => false
  | String _ s' => Contains s' substr
  end.

(** The slice expression [s[n:]].  Go panics when [n > len(s)]; every use
    in the program is guarded by a length or prefix test, and the model
    returns the empty string there. *)
Fixpoint slice_from (n : nat) (s : string) : string :=
  match n, s with
  | O, _ => s
  | S n', String _ s' => slice_from n' s'
  | S _, EmptyString => EmptyString
  end.

(** [strings.ReplaceAll(s, old, new)] for a non-empty [old]: the
    non-overlapping occurrences of [old] are replaced from left to right.
    [skip] counts the bytes of a matched occurrence still to be consumed. *)
Fixpoint replace_from (old new : string) (skip : nat) (s : string) : string :=
  match s with
  | EmptyString => EmptyString
  | String c s' =>
      match skip with
      | S k => replace_from old new k s'
      | O =>
          if HasPrefix s old
          then new +:+ replace_from old new (String.length old - 1) s'
          else String c (replace_from old new 0 s')
      end
  end.

Definition ReplaceAll (s old new : string) : string :=
  replace_from old new 0 s.

(** [strings.Split(s, sep)] for a one-byte separator. The result is never
    empty, so indexing it at [0] (see [first_field]) cannot panic. *)
Fixpoint Split (s : string) (sep : ascii) : list string :=
  match s with
  | EmptyString => [EmptyString]
  | String c s' =>
      if Ascii.eqb c sep then EmptyString :: Split s' sep
      else match Split s' sep with
           | h :: t => String c h :: t
           | [] => [String c EmptyString]
           end
  end.

(** [strings.Split(s, sep)[0]]. *)
Definition first_field (s : string) (sep : ascii) : string :=
  match Split s sep with
  | h :: _ => h
  | [] => EmptyString
  end.

(** Removal of every byte rejected by [keep]; the closed form of a run of
    [ReplaceAll(_, c, "")] calls. *)
Fixpoint keep_bytes (keep : ascii -> bool) (s : string) : string :=
  match s with
  | EmptyString => EmptyString
  | String c s' =>
      if keep c then String c (keep_bytes keep s') else keep_bytes keep s'
  end.

(** Every byte of [s] satisfies [p]. *)
Fixpoint all_bytes (p : ascii -> bool) (s : string) : bool :=
  match s with
  | EmptyString => true
  | String c s' => p c && all_bytes p s'
  end.

End GoStrings.

Import GoStrings.

(** ** [internal/models]: the guest record *)

(** [time.Time], as an offset from Go's zero instant; [IsZero] recognises
    the zero value of the type. *)
Definition Time : Type := Z.
Definition zeroTime : Time := 0.
Definition IsZero (t : Time) : bool := (t =? 0).

(** [type RSVPStatus string] and its four constants. The type is a Go
    string, so the zero value [""] and any other text inhabit it. *)
Definition RSVPStatus : Type := string.
Definition RSVPPending : RSVPStatus := "pending".
Definition RSVPAccepted : RSVPStatus := "accepted".
Definition RSVPDeclined : RSVPStatus := "declined".
Definition RSVPNotInvited : RSVPStatus := "not_invited".

(** [type Guest struct]; [Status] is the field [RSVPStatus]. *)
Record Guest : Type := mkGuest {
  PhoneNumber : string;
  Name : string;
  Status : RSVPStatus;
  RSVPDate : Time;
  InvitedDate : Time;
  Notes : string
}.

Definition set_Status (v : RSVPStatus) (g : Guest) : Guest :=
  mkGuest (PhoneNumber g) (Name g) v (RSVPDate g) (InvitedDate g) (Notes g).
Definition set_RSVPDate (v : Time) (g : Guest) : Guest :=
  mkGuest (PhoneNumber g) (Name g) (Status g) v (InvitedDate g) (Notes g).
Definition set_InvitedDate (v : Time) (g : Guest) : Guest :=
  mkGuest (PhoneNumber g) (Name g) (Status g) (RSVPDate g) v (Notes g).
Definition set_Notes (v : string) (g : Guest) : Guest :=
  mkGuest (PhoneNumber g) (Name g) (Status g) (RSVPDate g) (InvitedDate g) v.

(** ** [internal/storage]: the guest store *)

(** A Go [error]: [None] is [nil], [Some msg] an error whose text is [msg]. *)
Definition error : Type := option string.

(** A value or an error, for the Go results that pair a pointer with an
    [error]. *)
Inductive result (A : Type) : Type :=
| Ok (a : A)
| Err (msg : string).
Arguments Ok {A} a.
Arguments Err {A} msg.

(** The backing file: absent, holding the serialisation of a guest list, or
    left with unusable content by a write that failed half-way. *)
Inductive Disk : Type :=
| NoFile
| Snapshot (gs : list Guest)
| Torn.

(** [type Storage struct]: the in-memory slice and the file behind it (the
    lock serialises the operations and is not represented). *)
Record Storage : Type := mkStorage {
  guests : list Guest;
  file : Disk
}.

(** What the file system does with one [Save]: the write succeeds, or one
    of its steps fails with some error text and leaves the file as [residue]. *)
Inductive SaveOutcome : Type :=
| SaveOk
| SaveFails (msg : string) (residue : Disk).

(** [Save]: the whole slice is written as one unit. *)
Definition Save (io : SaveOutcome) (s : Storage) : Storage * error :=
  match io with
  | SaveOk => (mkStorage (guests s) (Snapshot (guests s)), None)
  | SaveFails msg residue => (mkStorage (guests s) residue, Some msg)
  end.

(** The loop [for i, g := range s.guests { if g.PhoneNumber == phone ...]:
    the first index holding [phone], with the record found there. *)
Definition find_guest (phone : string) (gs : list Guest) : option (nat * Guest) :=
  list_find (λ g, PhoneNumber g = phone) gs.

(** [AddGuest]: update the first record with the same phone number, or
    append a new one; [now] is the value of [time.Now()]. *)
Definition AddGuest (now : Time) (io : SaveOutcome) (guest : Guest)
    (s : Storage) : Storage * error :=
  match find_guest (PhoneNumber guest) (guests s) with
  | Some (i, g) =>
      let guest := set_InvitedDate (InvitedDate g) guest in
      let guest :=
        if decide (Status guest = RSVPNotInvited)
        then set_Status (Status g) guest else guest in
      Save io (mkStorage (<[i := guest]> (guests s)) (file s))
  | None =>
      let guest :=
        if IsZero (InvitedDate guest)
        then set_InvitedDate now guest else guest in
      let guest :=
        if decide (Status guest = "")
        then set_Status RSVPPending guest else guest in
      Save io (mkStorage (guests s ++ [guest]) (file s))
  end.

(** [GetGuest]: a copy of the first record with that phone number. *)
Definition GetGuest (phoneNumber : string) (s : Storage) : result Guest :=
  match find_guest phoneNumber (guests s) with
  | Some (_, g) => Ok g
  | None => Err "guest not found"
  end.

(** [UpdateRSVP]: set status and response date of the first record with
    that phone number, and its notes when [notes] is not empty. *)
Definition UpdateRSVP (now : Time) (io : SaveOutcome) (phoneNumber : string)
    (status : RSVPStatus) (notes : string) (s : Storage) : Storage * error :=
  match find_guest phoneNumber (guests s) with
  | Some (i, g) =>
      let g := set_Status status g in
      let g := set_RSVPDate now g in
      let g := if decide (notes ≠ "") then set_Notes notes g else g in
      Save io (mkStorage (<[i := g]> (guests s)) (file s))
  | None => (s, Some "guest not found")
  end.

(** [GetAllGuests]: a copy of the slice. *)
Definition GetAllGuests (s : Storage) : list Guest := guests s.

(** [GetGuestsByStatus]. *)
Definition GetGuestsByStatus (status : RSVPStatus) (s : Storage) : list Guest :=
  filter (λ g, Status g = status) (guests s).

(** What [os.ReadFile] gives [Load]: an error, or the bytes of the file. *)
Inductive ReadOutcome : Type :=
| ReadFails (e : string)
| ReadData (data : string).

Section Loading.

(** [json.Unmarshal(data, &s.guests)] of the Go library: from the bytes and
    the slice it decodes into, the slice it leaves and its error. *)
Variable Unmarshal : string -> list Guest -> list Guest * error.

(** [Load]: replace the slice by the content of the file; an empty file is
    an empty collection and is not handed to the decoder. *)
Definition Load (rd : ReadOutcome) (s : Storage) : Storage * error :=
  match rd with
  | ReadFails e => (s, Some ("failed to read file: " +:+ e))
  | ReadData data =>
      if (String.length data =? 0)%nat then (mkStorage [] (file s), None)
      else
        let '(gs, err) := Unmarshal data (guests s) in
        let s := mkStorage gs (file s) in
        match err with
        | Some e => (s, Some ("failed to unmarshal data: " +:+ e))
        | None => (s, None)
        end
  end.

(** [NewStorage]: an empty store, loaded from the file when [os.Stat]
    succeeds on its path ([fileExists]); a failed load gives no store. *)
Definition NewStorage (fileExists : bool) (rd : ReadOutcome) (d : Disk)
    : result Storage :=
  let s := mkStorage [] d in
  if fileExists then
    match Load rd s with
    | (_, Some e) => Err ("failed to load storage: " +:+ e)
    | (s, None) => Ok s
    end
  else Ok s.

End Loading.

(** ** The world the program runs in *)

(** A message handed to the WhatsApp client's [SendMessage]: the phone number
    that was verified, the JID the verification resolved it to, the text. *)
Record Outbound : Type := mkOutbound {
  recipient : string;
  jid : string;
  body : string
}.

(** The guest store of [main] and the messages handed to the client so far. *)
Record World : Type := mkWorld {
  store : Storage;
  outbox : list Outbound
}.

(** What the WhatsApp network does with one send request of the service:
    [IsOnWhatsApp] fails; it answers that the number is not registered (or
    answers nothing); the number is verified with JID [jid] and the client's
    [SendMessage] fails with text [e]; or the message goes out. *)
Inductive NetOutcome : Type :=
| VerifyError (e : string)
| NotOnWhatsApp
| SendError (jid e : string)
| Sent (jid : string).

(** The environment of one call into the program: the clock read by
    [time.Now()], the fate of the file write, the fate of the send. *)
Record Env : Type := mkEnv {
  now : Time;
  disk_io : SaveOutcome;
  net : NetOutcome
}.

(** The [events.Message] of the client library, reduced to what the program
    reads: [Sender] is the text of [msg.Info.Sender.String()], [Message] is
    [None] for a nil message, [Conversation] is [None] for a nil text. *)
Record MessageInfo : Type := mkMessageInfo {
  Sender : string;
  IsFromMe : bool
}.

Record WaMessage : Type := mkWaMessage {
  Conversation : option string
}.

Record EventsMessage : Type := mkEventsMessage {
  Info : MessageInfo;
  Message : option WaMessage
}.

(** The generated getter [GetConversation], safe on nil. *)
Definition GetConversation (m : option WaMessage) : string :=
  match m with
  | Some (mkWaMessage (Some text)) => text
  | _ => ""
  end.

(** The events the client dispatches to [eventHandler]. *)
Inductive Event : Type :=
| EvMessage (msg : EventsMessage)
| EvConnected
| EvDisconnected
| EvLoggedOut
| EvOther.

(** The line feed of the Go string escapes. *)
Definition LF : string := String "010" EmptyString.

(** ** [internal/whatsapp]: the messaging service *)

Module whatsapp.

(** [NormalizePhoneNumber]: strip [+], space, [-], [(] and [)]; turn a
    10-byte number with a leading [0] into [972] followed by the rest; drop
    the [0] that directly follows a leading [972]. *)
Definition NormalizePhoneNumber (phoneNumber : string) : string :=
  let phoneNumber := ReplaceAll phoneNumber "+" "" in
  let phoneNumber := ReplaceAll phoneNumber " " "" in
  let phoneNumber := ReplaceAll phoneNumber "-" "" in
  let phoneNumber := ReplaceAll phoneNumber "(" "" in
  let phoneNumber := ReplaceAll phoneNumber ")" "" in
  let phoneNumber :=
    if HasPrefix phoneNumber "0" && (String.length phoneNumber =? 10)%nat
    then "972" +:+ slice_from 1 phoneNumber
    else phoneNumber in
  let phoneNumber :=
    if HasPrefix phoneNumber "9720"
    then "972" +:+ slice_from 4 phoneNumber
    else phoneNumber in
  phoneNumber.

(** [type MessageHandler]: a function from a message to an [error], acting
    on the world. *)
Definition MessageHandler : Type := EventsMessage -> World -> World * error.

(** The common second half of [SendInvitation] and [SendMessage]: verify
    the number, hand the message to the client, report. *)
Definition deliver (io : NetOutcome) (phoneNumber message : string)
    (out : list Outbound) : list Outbound * error :=
  match io with
  | VerifyError e =>
      (out, Some ("failed to verify number on WhatsApp: " +:+ e))
  | NotOnWhatsApp =>
      (out, Some ("number " +:+ phoneNumber +:+
         " is not registered on WhatsApp or not in contacts. Please ensure: 1) The number has WhatsApp, 2) The number is saved in your phone contacts with country code (e.g., +972...), 3) WhatsApp has synced contacts"))
  | SendError jid e =>
      (out ++ [mkOutbound phoneNumber jid message],
       Some (if Contains e "unknown server" || Contains e "can't send message"
             then "failed to send message to " +:+ phoneNumber +:+
                  " (JID: " +:+ jid +:+ "): " +:+ e +:+
                  ". Note: The recipient must be in your WhatsApp contacts. Try: 1) Ensure the number is in your phone contacts with country code (972...), 2) Wait for WhatsApp to sync contacts (may take a few minutes), 3) Or have them message you first"
             else "failed to send message: " +:+ e))
  | Sent jid => (out ++ [mkOutbound phoneNumber jid message], None)
  end.

(** [Service.SendInvitation]. *)
Definition SendInvitation (io : NetOutcome)
    (phoneNumber name weddingDate weddingLocation brideName groomName : string)
    (out : list Outbound) : list Outbound * error :=
  let message :=
    "🎉 *Wedding Invitation*" +:+ LF +:+ LF +:+
    "Dear " +:+ name +:+ "," +:+ LF +:+ LF +:+
    "You are cordially invited to celebrate the wedding of" +:+ LF +:+ LF +:+
    "*" +:+ brideName +:+ "* & *" +:+ groomName +:+ "*" +:+ LF +:+ LF +:+
    "📅 Date: " +:+ weddingDate +:+ LF +:+
    "📍 Location: " +:+ weddingLocation +:+ LF +:+ LF +:+
    "Please confirm your attendance by selecting one of the options below." in
  let phoneNumber := NormalizePhoneNumber phoneNumber in
  let message :=
    message +:+ LF +:+ LF +:+ "Reply with:" +:+ LF +:+
    "✅ *YES* to accept" +:+ LF +:+ "❌ *NO* to decline" in
  deliver io phoneNumber message out.

(** [Service.SendMessage]. *)
Definition SendMessage (io : NetOutcome) (phoneNumber message : string)
    (out : list Outbound) : list Outbound * error :=
  let phoneNumber := NormalizePhoneNumber phoneNumber in
  deliver io phoneNumber message out.

(** [Service.handleMessage]: messages of the bot's own account are
    skipped; otherwise the registered handler runs and its error is only
    logged; without a handler the message is only logged. *)
Definition handleMessage (messageHandler : option MessageHandler)
    (msg : EventsMessage) (w : World) : World :=
  if IsFromMe (Info msg) then w
  else match messageHandler with
       | Some h => fst (h msg w)
       | None => w
       end.

(** [Service.eventHandler]: a nil event is dropped, a message goes to
    [handleMessage], the other events are logged. *)
Definition eventHandler (messageHandler : option MessageHandler)
    (evt : option Event) (w : World) : World :=
  match evt with
  | None => w
  | Some (EvMessage msg) => handleMessage messageHandler msg w
  | Some _ => w
  end.

End whatsapp.

(** ** [internal/handler]: the RSVP orchestrator *)

Module handler.

(** [type Config struct] of the handler. *)
Record Config : Type := mkConfig {
  WeddingDate : string;
  WeddingLocation : string;
  BrideName : string;
  GroomName : string
}.

(** [containsAny]: some keyword occurs in [text]. *)
Fixpoint containsAny (text : string) (keywords : list string) : bool :=
  match keywords with
  | [] => false
  | keyword :: rest =>
      if Contains text keyword then true else containsAny text rest
  end.

(** The two keyword lists of [HandleMessage], in source order. *)
Definition affirmative : list string :=
  ["yes"; "yep"; "yeah"; "accept"; "accepting"; "attending"; "coming";
   "will come"; "will be there"; "✅"].

Definition negative : list string :=
  ["no"; "nope"; "decline"; "declining"; "not coming"; "can't come";
   "won't come"; "can't make it"; "❌"].

(** The three ways the [if / else if / else] of [HandleMessage] can go. *)
Inductive Intent : Type := Accept | Decline | Unrecognized.

Definition classify (text : string) : Intent :=
  if containsAny text affirmative then Accept
  else if containsAny text negative then Decline
  else Unrecognized.

(** The confirmation texts built by [fmt.Sprintf]. *)
Definition acceptedMessage (config : Config) : string :=
  "🎉 Wonderful! We're so excited to celebrate with you!" +:+ LF +:+ LF +:+
  "We've confirmed your attendance for the wedding of " +:+
  BrideName config +:+ " & " +:+ GroomName config +:+ " on " +:+
  WeddingDate config +:+ "." +:+ LF +:+ LF +:+
  "See you there! 💕".

Definition declinedMessage (config : Config) : string :=
  "Thank you for letting us know. We're sorry you won't be able to join us for the wedding of " +:+
  BrideName config +:+ " & " +:+ GroomName config +:+ "." +:+ LF +:+ LF +:+
  "We'll miss you! 💕".

Section Handler.

(** [strings.ToLower] and [strings.TrimSpace] of the Go library, which
    work on Unicode code points; the handler is defined, and its
    properties hold, for whatever these two functions compute. *)
Variables ToLower TrimSpace : string -> string.

(** The phone number [HandleMessage] looks the sender up by: the text
    before the first [@], without [+] and spaces. *)
Definition senderPhone (msg : EventsMessage) : string :=
  let sender := Sender (Info msg) in
  let phoneNumber := first_field sender "@" in
  let phoneNumber := ReplaceAll phoneNumber "+" "" in
  let phoneNumber := ReplaceAll phoneNumber " " "" in
  phoneNumber.

(** [RSVPHandler.HandleMessage]. *)
Definition HandleMessage (config : Config) (env : Env)
    (msg : EventsMessage) (w : World) : World * error :=
  match Message msg with
  | None => (w, None)
  | Some _ =>
      let text := GetConversation (Message msg) in
      if decide (text = "") then (w, None) else
      let phoneNumber := senderPhone msg in
      match GetGuest phoneNumber (store w) with
      | Err _ => (w, None)
      | Ok _ =>
          let text := ToLower (TrimSpace text) in
          let reply :=
            match classify text with
            | Accept => Some (RSVPAccepted, acceptedMessage config)
            | Decline => Some (RSVPDeclined, declinedMessage config)
            | Unrecognized => None
            end in
          match reply with
          | None => (w, None)
          | Some (newStatus, responseMessage) =>
              let '(st, err) :=
                UpdateRSVP (now env) (disk_io env) phoneNumber newStatus ""
                  (store w) in
              let w := mkWorld st (outbox w) in
              match err with
              | Some e => (w, Some ("failed to update RSVP: " +:+ e))
              | None =>
                  let '(out, err) :=
                    whatsapp.SendMessage (net env) phoneNumber
                      responseMessage (outbox w) in
                  let w := mkWorld (store w) out in
                  match err with
                  | Some e =>
                      (w, Some ("failed to send confirmation: " +:+ e))
                  | None => (w, None)
                  end
              end
          end
      end
  end.

End Handler.

(** [RSVPHandler.SendInvitation]. *)
Definition SendInvitation (config : Config) (env : Env)
    (phoneNumber name : string) (w : World) : World * error :=
  let normalizedNumber := whatsapp.NormalizePhoneNumber phoneNumber in
  let guest := mkGuest normalizedNumber name RSVPPending zeroTime zeroTime "" in
  let '(st, err) := AddGuest (now env) (disk_io env) guest (store w) in
  let w := mkWorld st (outbox w) in
  match err with
  | Some e => (w, Some ("failed to add guest: " +:+ e))
  | None =>
      let '(out, err) :=
        whatsapp.SendInvitation (net env) phoneNumber name
          (WeddingDate config) (WeddingLocation config)
          (BrideName config) (GroomName config) (outbox w) in
      let w := mkWorld (store w) out in
      match err with
      | Some e => (w, Some ("failed to send invitation: " +:+ e))
      | None => (w, None)
      end
  end.

End handler.

(** ** [internal/config]: configuration from the environment *)

Module config.

(** [type Config struct] of the application. *)
Record Config : Type := mkConfig {
  WhatsAppDataDir : string;
  WeddingDate : string;
  WeddingLocation : string;
  BrideName : string;
  GroomName : string
}.

(** [os.Getenv]: the value of a variable of the process environment, empty
    when the variable is not set. *)
Definition Getenv (environ : gmap string string) (key : string) : string :=
  default "" (environ !! key).

(** [getEnv]. *)
Definition getEnv (environ : gmap string string) (key defaultValue : string)
    : string :=
  let value := Getenv environ key in
  if decide (value ≠ "") then value else defaultValue.

(** [LoadConfig]. *)
Definition LoadConfig (environ : gmap string string) : Config :=
  mkConfig
    (getEnv environ "WHATSAPP_DATA_DIR" "data")
    (getEnv environ "WEDDING_DATE" "Saturday, January 1, 2025")
    (getEnv environ "WEDDING_LOCATION" "Venue TBD")
    (getEnv environ "BRIDE_NAME" "Bride")
    (getEnv environ "GROOM_NAME" "Groom").

End config.

(** ** [main]: the command line and the wiring of the parts *)

Module main.

(** The handler configuration written out in [main]. *)
Definition handlerConfig : handler.Config :=
  handler.mkConfig "05.01.2026" "אולמי אמרה נס ציונה" "ענת מגן" "דוד מדינרדזה".

(** The [switch] of [viewGuestsByStatus] on the trimmed choice. *)
Definition statusOfChoice (choice : string) : option RSVPStatus :=
  if decide (choice = "1") then Some RSVPPending
  else if decide (choice = "2") then Some RSVPAccepted
  else if decide (choice = "3") then Some RSVPDeclined
  else None.

Section CLI.

Variables ToLower TrimSpace : string -> string.

(** [sendInvitation]: the two lines typed by the operator, [None] when the
    scanner has no more input; the error is the one printed. *)
Definition sendInvitation (config : handler.Config) (env : Env)
    (nameLine phoneLine : option string) (w : World) : World * error :=
  match nameLine with
  | None => (w, None)
  | Some nameText =>
      let name := TrimSpace nameText in
      match phoneLine with
      | None => (w, None)
      | Some phoneText =>
          let phoneNumber := TrimSpace phoneText in
          let phoneNumber := ReplaceAll phoneNumber "+" "" in
          let phoneNumber := ReplaceAll phoneNumber " " "" in
          let phoneNumber := ReplaceAll phoneNumber "-" "" in
          handler.SendInvitation config env phoneNumber name w
      end
  end.

(** [viewAllGuests] and [viewGuestsByStatus]: the guests they print, none
    on an invalid choice. *)
Definition viewAllGuests (s : Storage) : list Guest := GetAllGuests s.

Definition viewGuestsByStatus (choiceLine : option string) (s : Storage)
    : list Guest :=
  match choiceLine with
  | None => []
  | Some choiceText =>
      match statusOfChoice (TrimSpace choiceText) with
      | Some status => GetGuestsByStatus status s
      | None => []
      end
  end.

(** What happens to the running program: the operator sends an invitation
    (command 1), or the client delivers an event to the service, whose
    message handler [main] has set to [HandleMessage]. The command line and
    the event handler run in two goroutines; a run takes their calls one
    after the other, as whole calls. *)
Inductive Call : Type :=
| Invite (env : Env) (nameLine phoneLine : option string)
| Deliver (env : Env) (evt : option Event).

Definition step (w : World) (c : Call) : World :=
  match c with
  | Invite env nameLine phoneLine =>
      fst (sendInvitation handlerConfig env nameLine phoneLine w)
  | Deliver env evt =>
      whatsapp.eventHandler
        (Some (handler.HandleMessage ToLower TrimSpace handlerConfig env))
        evt w
  end.

(** A run of the program from a world. *)
Definition run (calls : list Call) (w : World) : World :=
  foldl step w calls.

End CLI.

End main.

(** ** ASCII text

    On text made of ASCII bytes only, [strings.ToLower] maps [A]-[Z] to
    [a]-[z] and [strings.TrimSpace] removes the leading and trailing bytes
    among tab, line feed, vertical tab, form feed, carriage return and
    space. These two functions serve to run the handler on examples. *)

Definition ascii_lower (c : ascii) : ascii :=
  let n := nat_of_ascii c in
  if (65 <=? n)%nat && (n <=? 90)%nat then ascii_of_nat (n + 32) else c.

Fixpoint ascii_ToLower (s : string) : string :=
  match s with
  | EmptyString => EmptyString
  | String c s' => String (ascii_lower c) (ascii_ToLower s')
  end.

Definition ascii_space (c : ascii) : bool :=
  let n := nat_of_ascii c in
  ((9 <=? n)%nat && (n <=? 13)%nat) || (n =? 32)%nat.

Fixpoint trim_left (s : string) : string :=
  match s with
  | EmptyString => EmptyString
  | String c s' => if ascii_space c then trim_left s' else s
  end.

Fixpoint trim_right (s : string) : string :=
  match s with
  | EmptyString => EmptyString
  | String c s' =>
      match trim_right s' with
      | EmptyString => if ascii_space c then EmptyString else String c EmptyString
      | t => String c t
      end
  end.

Definition ascii_TrimSpace (s : string) : string := trim_right (trim_left s).

(** ** Vocabulary of the specification *)

(** The country calling code that [NormalizePhoneNumber] writes out. *)
Definition countryCode : string := "972".

(** The bytes removed by the first step of the normalisation. *)
Definition symbol (c : ascii) : bool :=
  Ascii.eqb c "+" || Ascii.eqb c " " || Ascii.eqb c "-" ||
  Ascii.eqb c "(" || Ascii.eqb c ")".

Definition strip (s : string) : string :=
  keep_bytes (λ c, negb (symbol c)) s.

Definition is_digit (c : ascii) : bool :=
  let n := nat_of_ascii c in (48 <=? n)%nat && (n <=? 57)%nat.

Definition digits (s : string) : bool := all_bytes is_digit s.

(** A canonical phone number: digits only, in international format, which
    has no leading zero and no zero between the country code and the
    subscriber number. *)
Definition canonical (s : string) : bool :=
  digits s && negb (HasPrefix s "0") && negb (HasPrefix s (countryCode +:+ "0")).

(** The near-canonical forms are those the normalisation is written for:
    a canonical number decorated with the symbols it strips, the local form
    of ten digits with one leading zero, and the country code followed by
    one redundant zero. *)
Definition near_canonical (x : string) : bool :=
  let d := strip x in
  digits d &&
  (canonical d
   || (HasPrefix d "0" && (String.length d =? 10)%nat && negb (HasPrefix d "00"))
   || (HasPrefix d (countryCode +:+ "0")
       && negb (HasPrefix d (countryCode +:+ "00")))).

(** The second and third step of the normalisation, on stripped text. *)
Definition local_rule (s : string) : string :=
  if HasPrefix s "0" && (String.length s =? 10)%nat
  then "972" +:+ slice_from 1 s else s.

Definition zero_rule (s : string) : string :=
  if HasPrefix s "9720" then "972" +:+ slice_from 4 s else s.

(** How many keywords of a list occur in a text. *)
Fixpoint keywords_found (text : string) (keywords : list string) : nat :=
  match keywords with
  | [] => 0%nat
  | keyword :: rest =>
      ((if Contains text keyword then 1 else 0) + keywords_found text rest)%nat
  end.

(** The store holds no record for a phone number. *)
Definition unknown (phone : string) (s : Storage) : Prop :=
  ∀ g, g ∈ guests s → PhoneNumber g ≠ phone.

(** [g] at index [i] is the first record for a phone number, the one the
    store's operations act on. *)
Definition first_record (phone : string) (s : Storage) (i : nat) (g : Guest) : Prop :=
  guests s !! i = Some g ∧ PhoneNumber g = phone ∧
  ∀ j h, guests s !! j = Some h → (j < i)%nat → PhoneNumber h ≠ phone.

(** The text the classifier sees for a message, given Go's [ToLower] and
    [TrimSpace]. *)
Definition lowered_text (ToLower TrimSpace : string → string)
    (msg : EventsMessage) : string :=
  ToLower (TrimSpace (GetConversation (Message msg))).

(** The phone numbers of the records, in the order of the slice. *)
Definition keys (s : Storage) : list string := PhoneNumber <$> guests s.

(** No two records share a phone number. *)
Definition unique_keys (s : Storage) : Prop := NoDup (keys s).

(** The statuses a guest handled by the orchestrator can have. *)
Definition invited_status (status : RSVPStatus) : Prop :=
  status = RSVPPending ∨ status = RSVPAccepted ∨ status = RSVPDeclined.

(** The error a [Save] with a given outcome returns. *)
Definition save_error (io : SaveOutcome) : error :=
  match io with
  | SaveOk => None
  | SaveFails msg _ => Some msg
  end.

(** [k] occurs in [text]: the text is a prefix, [k], and a suffix. *)
Definition occurs (k text : string) : Prop :=
  ∃ pre post, text = pre +:+ k +:+ post.

(** The classifier over arbitrary keyword lists. *)
Definition classify_with (yes no : list string) (text : string)
    : handler.Intent :=
  if handler.containsAny text yes then handler.Accept
  else if handler.containsAny text no then handler.Decline
  else handler.Unrecognized.

(** The status and the confirmation text that go with an intent. *)
Definition status_of (intent : handler.Intent) : RSVPStatus :=
  match intent with
  | handler.Accept => RSVPAccepted
  | _ => RSVPDeclined
  end.

Definition reply_of (config : handler.Config) (intent : handler.Intent)
    : string :=
  match intent with
  | handler.Accept => handler.acceptedMessage config
  | _ => handler.declinedMessage config
  end.

(** A reply is recognised: it has a text, its sender has the record [g],
    and the classifier gives an intent for its lower-cased, trimmed text. *)
Definition recognised_reply (ToLower TrimSpace : string → string)
    (msg : EventsMessage) (w : World) (g : Guest)
    (intent : handler.Intent) : Prop :=
  GetConversation (Message msg) ≠ "" ∧
  GetGuest (handler.senderPhone msg) (store w) = Ok g ∧
  handler.classify (lowered_text ToLower TrimSpace msg) = intent ∧
  intent ≠ handler.Unrecognized.

(** The shape of the store that the program keeps: one record per phone
    number, every phone number free of the five symbols, every status one
    of pending, accepted and declined. *)
Definition well_formed (s : Storage) : Prop :=
  unique_keys s ∧
  Forall (λ g, all_bytes (λ c, negb (symbol c)) (PhoneNumber g) = true ∧
               invited_status (Status g)) (guests s).

(** ** Example data *)

Module Ex.

Definition config : handler.Config :=
  handler.mkConfig "05.01.2026" "Hall" "Anat" "David".

(** A guest invited at instant 100 who accepted at instant 150. *)
Definition dana : Guest :=
  mkGuest "972501112222" "Dana" RSVPAccepted 150 100 "vegetarian".

Definition stored : Storage := mkStorage [dana] (Snapshot [dana]).
Definition world : World := mkWorld stored [].
Definition empty_world : World := mkWorld (mkStorage [] NoFile) [].

(** An environment at instant 200 where the write and the send succeed. *)
Definition env : Env :=
  mkEnv 200 SaveOk (Sent "972501112222@s.whatsapp.net").

Definition jid_of_dana : string := "972501112222@s.whatsapp.net".
Definition jid_of_stranger : string := "972509999999@s.whatsapp.net".

Definition text_from (sender text : string) : EventsMessage :=
  mkEventsMessage (mkMessageInfo sender false)
    (Some (mkWaMessage (Some text))).

Definition own_message : EventsMessage :=
  mkEventsMessage (mkMessageInfo jid_of_dana true)
    (Some (mkWaMessage (Some "yes"))).

Definition nil_message : EventsMessage :=
  mkEventsMessage (mkMessageInfo jid_of_dana false) None.

(** The handler run with the ASCII versions of the two text functions. *)
Definition HandleMessage :=
  handler.HandleMessage ascii_ToLower ascii_TrimSpace config.

End Ex.

(** ** Examples *)

Example normalize_local : whatsapp.NormalizePhoneNumber "0538268277" = "972538268277".
Proof. reflexivity. Qed.

Example normalize_redundant_zero :
  whatsapp.NormalizePhoneNumber "9720538268277" = "972538268277".
Proof. reflexivity. Qed.

Example normalize_symbols :
  whatsapp.NormalizePhoneNumber "+972 (53) 826-8277" = "972538268277".
Proof. reflexivity. Qed.

Example normalize_double_zero :
  whatsapp.NormalizePhoneNumber "0012345678" = "97212345678".
Proof. reflexivity. Qed.

(** The two glyphs among the keywords are the UTF-8 bytes of the source. *)
Example check_mark_bytes :
  last handler.affirmative = Some (String "226" (String "156" (String "133" ""))) ∧
  last handler.negative = Some (String "226" (String "157" (String "140" ""))).
Proof. split; reflexivity. Qed.

(** The scenario of the specification: an invitation creates one pending
    record under the canonical number; the reply is classified as an
    acceptance, recorded with its date, and confirmed exactly once, to the
    canonical number. *)
Example invitation_then_reply :
  let w1 := fst (handler.SendInvitation Ex.config Ex.env "0501112222" "Dana"
                   Ex.empty_world) in
  let w2 := fst (Ex.HandleMessage (mkEnv 300 SaveOk (Sent Ex.jid_of_dana))
                   (Ex.text_from Ex.jid_of_dana "Yes, can't wait!") w1) in
  guests (store w1) = [mkGuest "972501112222" "Dana" RSVPPending zeroTime 200 ""] ∧
  guests (store w2) = [mkGuest "972501112222" "Dana" RSVPAccepted 300 200 ""] ∧
  file (store w2) = Snapshot (guests (store w2)) ∧
  recipient <$> outbox w1 = ["972501112222"] ∧
  outbox w2 = outbox w1 ++
    [mkOutbound "972501112222" Ex.jid_of_dana (handler.acceptedMessage Ex.config)].
Proof. vm_compute. done. Qed.

Example classify_end_to_end :
  handler.classify (ascii_ToLower (ascii_TrimSpace "  Yes, can't wait! ")) = handler.Accept.
Proof. reflexivity. Qed.

(** ** Lookup in the store *)

Lemma find_guest_unknown phone s :
  find_guest phone (guests s) = None ↔ unknown phone s.
Proof.
  unfold find_guest, unknown. rewrite list_find_None, Forall_forall. done.
Qed.

Lemma find_guest_first phone s i g :
  find_guest phone (guests s) = Some (i, g) ↔ first_record phone s i g.
Proof.
  unfold find_guest, first_record. rewrite list_find_Some. naive_solver.
Qed.

Lemma GetGuest_unknown phone s :
  unknown phone s → GetGuest phone s = Err "guest not found".
Proof.
  intros H%find_guest_unknown. unfold GetGuest. by rewrite H.
Qed.

Lemma GetGuest_first phone s i g :
  first_record phone s i g → GetGuest phone s = Ok g.
Proof.
  intros H%find_guest_first. unfold GetGuest. by rewrite H.
Qed.

(** ** The store operations *)

(** C6. [UpdateRSVP] on a phone number without a record returns the error
    "guest not found" and leaves the store, that is the collection in
    memory and the backing file, exactly as it was. *)
Theorem UpdateRSVP_unknown_phone (t : Time) (io : SaveOutcome)
    (phone : string) (status : RSVPStatus) (notes : string) (s : Storage) :
  unknown phone s →
  UpdateRSVP t io phone status notes s = (s, Some "guest not found").
Proof.
  intros H%find_guest_unknown. unfold UpdateRSVP. by rewrite H.
Qed.

(** ** The keyword classifier *)

Lemma containsAny_found text keywords :
  handler.containsAny text keywords = negb (keywords_found text keywords =? 0)%nat.
Proof.
  induction keywords as [|k ks IH]; simpl; [done|].
  destruct (Contains text k); simpl; done.
Qed.

Lemma containsAny_none text keywords :
  keywords_found text keywords = 0%nat → handler.containsAny text keywords = false.
Proof. intros H. by rewrite containsAny_found, H. Qed.

Lemma containsAny_some text keywords :
  (0 < keywords_found text keywords)%nat → handler.containsAny text keywords = true.
Proof.
  intros H. rewrite containsAny_found.
  destruct (keywords_found text keywords); [lia|done].
Qed.

Lemma classify_affirmative_first text :
  (0 < keywords_found text handler.affirmative)%nat →
  handler.classify text = handler.Accept.
Proof. intros H. unfold handler.classify. by rewrite containsAny_some. Qed.

Section HandlerProperties.

Variables ToLower TrimSpace : string -> string.

Local Abbreviation HandleMessage := (handler.HandleMessage ToLower TrimSpace).

Lemma HandleMessage_unrecognized config env msg w :
  handler.classify (lowered_text ToLower TrimSpace msg) = handler.Unrecognized →
  HandleMessage config env msg w = (w, None).
Proof.
  intros Hc. unfold handler.HandleMessage.
  destruct (Message msg) as [m|] eqn:Hm; [|done].
  case_decide; [done|].
  destruct (GetGuest _ _); [|done].
  unfold lowered_text in Hc. rewrite Hm in Hc. by rewrite Hc.
Qed.

(** C5. On the lower-cased, trimmed text of a message: exactly one
    affirmative keyword and no negative one gives Accept; exactly one
    negative keyword and no affirmative one gives Decline; no keyword of
    either list gives Unrecognized, and then the handler changes nothing
    in the store and sends nothing. *)
Theorem classify_by_keywords (config : handler.Config) (env : Env)
    (msg : EventsMessage) (w : World) :
  let text := lowered_text ToLower TrimSpace msg in
  (keywords_found text handler.affirmative = 1%nat →
   keywords_found text handler.negative = 0%nat →
   handler.classify text = handler.Accept) ∧
  (keywords_found text handler.negative = 1%nat →
   keywords_found text handler.affirmative = 0%nat →
   handler.classify text = handler.Decline) ∧
  (keywords_found text handler.affirmative = 0%nat →
   keywords_found text handler.negative = 0%nat →
   handler.classify text = handler.Unrecognized ∧
   HandleMessage config env msg w = (w, None)).
Proof.
  intros text. split_and!.
  - intros Ha _. apply classify_affirmative_first. lia.
  - intros Hn Ha. unfold handler.classify.
    rewrite (containsAny_none _ _ Ha), containsAny_some; [done|lia].
  - intros Ha Hn.
    assert (handler.classify text = handler.Unrecognized) as Hc.
    { unfold handler.classify.
      by rewrite (containsAny_none _ _ Ha), (containsAny_none _ _ Hn). }
    split; [done|]. by apply HandleMessage_unrecognized.
Qed.

(** C7, as the code has it. A message whose sender's phone number, as the
    handler extracts it (the text before the [@], without [+] and spaces,
    and not passed through [NormalizePhoneNumber]), has no record in the
    store changes nothing: the world, store and outbox, is returned as it
    was, and no error is reported. *)
Theorem HandleMessage_unknown_sender (config : handler.Config) (env : Env)
    (msg : EventsMessage) (w : World) :
  unknown (handler.senderPhone msg) (store w) →
  HandleMessage config env msg w = (w, None).
Proof.
  intros Hu. unfold handler.HandleMessage.
  destruct (Message msg); [|done].
  case_decide; [done|].
  by rewrite (GetGuest_unknown _ _ Hu).
Qed.

Lemma HandleMessage_no_text config env msg w :
  GetConversation (Message msg) = "" →
  HandleMessage config env msg w = (w, None).
Proof.
  intros Ht. unfold handler.HandleMessage.
  destruct (Message msg); [|done].
  rewrite Ht. by case_decide.
Qed.

(** C10. A message marked as sent from the bot's own account never
    reaches the registered handler, whatever that handler is, so the
    world stays as it was; and an event with a nil message or an empty
    conversation text leaves the store and the outbox unchanged, both in
    the RSVP handler and through the service that calls it. *)
Theorem own_and_empty_messages_dropped (config : handler.Config) (env : Env)
    (msg : EventsMessage) (w : World) :
  (IsFromMe (Info msg) = true →
   ∀ h : option whatsapp.MessageHandler, whatsapp.handleMessage h msg w = w) ∧
  (Message msg = None ∨ GetConversation (Message msg) = "" →
   HandleMessage config env msg w = (w, None) ∧
   whatsapp.handleMessage (Some (HandleMessage config env)) msg w = w).
Proof.
  split.
  - intros Hme h. unfold whatsapp.handleMessage. by rewrite Hme.
  - intros Hempty.
    assert (GetConversation (Message msg) = "") as Ht.
    { destruct Hempty as [-> | ->]; done. }
    split; [by apply HandleMessage_no_text|].
    unfold whatsapp.handleMessage.
    destruct (IsFromMe (Info msg)); [done|].
    by rewrite HandleMessage_no_text.
Qed.

End HandlerProperties.

(** ** Upsert and status update on an existing record *)

Lemma Save_guests io s : guests (fst (Save io s)) = guests s.
Proof. by destruct io. Qed.

Lemma first_record_lt phone s i g :
  first_record phone s i g → (i < length (guests s))%nat.
Proof. intros (H & _). by eapply lookup_lt_Some. Qed.

Lemma first_record_insert phone s s' i g g' :
  first_record phone s i g →
  guests s' = <[i := g']> (guests s) →
  PhoneNumber g' = phone →
  first_record phone s' i g'.
Proof.
  intros Hf Hs' Hp. pose proof (first_record_lt _ _ _ _ Hf) as Hlt.
  destruct Hf as (Hi & _ & Hleast). unfold first_record. rewrite Hs'.
  split_and!; [by apply list_lookup_insert_eq|done|].
  intros j h Hj Hlt'. rewrite list_lookup_insert_ne in Hj by lia. eauto.
Qed.

Lemma AddGuest_existing t io guest s i g :
  first_record (PhoneNumber guest) s i g →
  guests (fst (AddGuest t io guest s)) =
    <[i := mkGuest (PhoneNumber guest) (Name guest)
             (if decide (Status guest = RSVPNotInvited)
              then Status g else Status guest)
             (RSVPDate guest) (InvitedDate g) (Notes guest)]> (guests s).
Proof.
  intros H%find_guest_first. unfold AddGuest. rewrite H.
  rewrite Save_guests. simpl. by case_decide.
Qed.

Lemma AddGuest_new t io guest s :
  unknown (PhoneNumber guest) s →
  guests (fst (AddGuest t io guest s)) =
    guests s ++
    [mkGuest (PhoneNumber guest) (Name guest)
       (if decide (Status guest = "") then RSVPPending else Status guest)
       (RSVPDate guest)
       (if IsZero (InvitedDate guest) then t else InvitedDate guest)
       (Notes guest)].
Proof.
  intros H%find_guest_unknown. unfold AddGuest. rewrite H.
  rewrite Save_guests. simpl.
  destruct guest as [p n st rd ind nt]; simpl.
  destruct (IsZero ind); simpl; by case_decide.
Qed.

Lemma UpdateRSVP_existing t io phone status notes s i g :
  first_record phone s i g →
  guests (fst (UpdateRSVP t io phone status notes s)) =
    <[i := mkGuest (PhoneNumber g) (Name g) status t (InvitedDate g)
             (if decide (notes ≠ "") then notes else Notes g)]> (guests s).
Proof.
  intros H%find_guest_first. unfold UpdateRSVP. rewrite H.
  rewrite Save_guests. simpl. by case_decide.
Qed.

Lemma SendInvitation_store config env phone name w :
  store (fst (handler.SendInvitation config env phone name w)) =
  fst (AddGuest (now env) (disk_io env)
         (mkGuest (whatsapp.NormalizePhoneNumber phone) name RSVPPending
            zeroTime zeroTime "")
         (store w)).
Proof.
  unfold handler.SendInvitation.
  destruct (AddGuest _ _ _ _) as [st [e|]]; simpl; [done|].
  destruct (whatsapp.SendInvitation _ _ _ _ _ _ _ _) as [out [e|]]; done.
Qed.

(** C9. An upsert that finds a record for the phone number stores the
    incoming record in its place, keeping of the old record only the
    invitation date, and the status when the incoming status is
    not_invited. The record [SendInvitation] upserts has a zero response
    date and empty notes, so inviting a guest again erases the response
    date and the notes recorded before. *)
Theorem AddGuest_replaces_other_fields (config : handler.Config) (env : Env)
    (guest : Guest) (phone name : string) (w : World) (i : nat) (g : Guest) :
  first_record (PhoneNumber guest) (store w) i g →
  guests (fst (AddGuest (now env) (disk_io env) guest (store w))) =
    <[i := mkGuest (PhoneNumber guest) (Name guest)
             (if decide (Status guest = RSVPNotInvited)
              then Status g else Status guest)
             (RSVPDate guest) (InvitedDate g) (Notes guest)]>
      (guests (store w)) ∧
  (PhoneNumber guest = whatsapp.NormalizePhoneNumber phone →
   ∃ g', guests (store (fst (handler.SendInvitation config env phone name w))) !! i
           = Some g' ∧
         Name g' = name ∧ RSVPDate g' = zeroTime ∧ Notes g' = "" ∧
         InvitedDate g' = InvitedDate g).
Proof.
  intros Hf. split; [by apply AddGuest_existing|].
  intros Hp. rewrite Hp in Hf.
  rewrite SendInvitation_store, (AddGuest_existing _ _ _ _ i g) by done.
  eexists. split.
  - apply list_lookup_insert_eq. by eapply first_record_lt.
  - done.
Qed.

(** C3, as the code has it. [SendInvitation] for a phone number that has a
    record, whatever its status, leaves that record with status pending
    (and with its invitation date): an accepted or declined answer is not
    kept. What does keep the status of the record is an upsert whose
    incoming status is not_invited, and [SendInvitation] does not issue
    one. *)
Theorem SendInvitation_resets_status (config : handler.Config) (env : Env)
    (phone name : string) (w : World) (i : nat) (g : Guest) :
  first_record (whatsapp.NormalizePhoneNumber phone) (store w) i g →
  (∃ g',
     GetGuest (whatsapp.NormalizePhoneNumber phone)
       (store (fst (handler.SendInvitation config env phone name w))) = Ok g' ∧
     Status g' = RSVPPending ∧ InvitedDate g' = InvitedDate g) ∧
  (∀ t io name' date invited notes,
   ∃ g',
     GetGuest (whatsapp.NormalizePhoneNumber phone)
       (fst (AddGuest t io
               (mkGuest (whatsapp.NormalizePhoneNumber phone) name'
                  RSVPNotInvited date invited notes) (store w))) = Ok g' ∧
     Status g' = Status g ∧ InvitedDate g' = InvitedDate g).
Proof.
  intros Hf. split.
  - eexists. split.
    + eapply GetGuest_first, first_record_insert; [exact Hf| |].
      * rewrite SendInvitation_store. by apply AddGuest_existing.
      * done.
    + done.
  - intros t io name' date invited notes. eexists. split.
    + eapply GetGuest_first, first_record_insert; [exact Hf| |].
      * by apply AddGuest_existing.
      * done.
    + done.
Qed.

(** ** Status transitions *)

Lemma UpdateRSVP_status t io phone status notes s i g :
  guests s !! i = Some g →
  ∃ g', guests (fst (UpdateRSVP t io phone status notes s)) !! i = Some g' ∧
        PhoneNumber g' = PhoneNumber g ∧
        (Status g' = Status g ∨ Status g' = status).
Proof.
  intros Hi. unfold UpdateRSVP.
  destruct (find_guest phone (guests s)) as [[k h]|] eqn:Hfind.
  - rewrite Save_guests. simpl.
    apply find_guest_first in Hfind as Hf. destruct Hf as (Hk & _ & _).
    destruct (decide (k = i)) as [->|Hne].
    + rewrite list_lookup_insert_eq by (by eapply lookup_lt_Some).
      eexists. split; [done|].
      assert (h = g) as -> by congruence.
      case_decide; simpl; auto.
    + rewrite list_lookup_insert_ne by done. eauto.
  - simpl. eauto.
Qed.

Section Transitions.

Variables ToLower TrimSpace : string -> string.

Lemma HandleMessage_store config env msg w :
  store (fst (handler.HandleMessage ToLower TrimSpace config env msg w)) = store w ∨
  ∃ status, (status = RSVPAccepted ∨ status = RSVPDeclined) ∧
    store (fst (handler.HandleMessage ToLower TrimSpace config env msg w)) =
    fst (UpdateRSVP (now env) (disk_io env) (handler.senderPhone msg)
           status "" (store w)).
Proof.
  unfold handler.HandleMessage.
  destruct (Message msg); [|by left].
  case_decide; [by left|].
  destruct (GetGuest _ _); [|by left].
  destruct (handler.classify _); [| |by left]; right.
  - exists RSVPAccepted. split; [by left|].
    destruct (UpdateRSVP _ _ _ _ _ _) as [st [e|]]; simpl; [done|].
    by destruct (whatsapp.SendMessage _ _ _ _) as [out [e|]].
  - exists RSVPDeclined. split; [by right|].
    destruct (UpdateRSVP _ _ _ _ _ _) as [st [e|]]; simpl; [done|].
    by destruct (whatsapp.SendMessage _ _ _ _) as [out [e|]].
Qed.

End Transitions.

(** ** Phone number normalisation *)

Lemma ReplaceAll_byte (c : ascii) (s : string) :
  ReplaceAll s (String c EmptyString) "" =
  keep_bytes (λ d, negb (Ascii.eqb d c)) s.
Proof.
  unfold ReplaceAll. induction s as [|a s IH]; simpl; [done|].
  destruct (Ascii.eqb a c); simpl; by rewrite IH.
Qed.

Lemma keep_bytes_twice (p q : ascii → bool) (s : string) :
  keep_bytes q (keep_bytes p s) = keep_bytes (λ c, p c && q c) s.
Proof.
  induction s as [|a s IH]; simpl; [done|].
  destruct (p a); simpl; [|done].
  destruct (q a); simpl; by rewrite IH.
Qed.

Lemma keep_bytes_ext (p q : ascii → bool) (s : string) :
  (∀ c, p c = q c) → keep_bytes p s = keep_bytes q s.
Proof.
  intros Hpq. induction s as [|a s IH]; simpl; [done|].
  by rewrite Hpq, IH.
Qed.

Lemma keep_bytes_all (p : ascii → bool) (s : string) :
  all_bytes p (keep_bytes p s) = true.
Proof.
  induction s as [|a s IH]; simpl; [done|].
  destruct (p a) eqn:Hp; simpl; [by rewrite Hp|done].
Qed.

Lemma keep_bytes_id (p : ascii → bool) (s : string) :
  all_bytes p s = true → keep_bytes p s = s.
Proof.
  induction s as [|a s IH]; simpl; [done|].
  intros [Ha Hs]%andb_prop. by rewrite Ha, IH.
Qed.

Lemma all_bytes_app (p : ascii → bool) (s t : string) :
  all_bytes p s = true → all_bytes p t = true → all_bytes p (s +:+ t) = true.
Proof.
  induction s as [|a s IH]; simpl; [done|].
  intros [Ha Hs]%andb_prop Ht. by rewrite Ha, IH.
Qed.

Lemma all_bytes_slice (p : ascii → bool) (n : nat) (s : string) :
  all_bytes p s = true → all_bytes p (slice_from n s) = true.
Proof.
  revert s. induction n as [|n IH]; intros [|a s]; simpl; try done.
  intros [_ Hs]%andb_prop. by apply IH.
Qed.

Lemma all_bytes_weaken (p q : ascii → bool) (s : string) :
  (∀ c, p c = true → q c = true) →
  all_bytes p s = true → all_bytes q s = true.
Proof.
  intros Hpq. induction s as [|a s IH]; simpl; [done|].
  intros [Ha Hs]%andb_prop. by rewrite (Hpq _ Ha), IH.
Qed.

Lemma digit_not_symbol (c : ascii) : is_digit c = true → negb (symbol c) = true.
Proof.
  destruct c as [[] [] [] [] [] [] [] []]; vm_compute; congruence.
Qed.

(** The normalisation in closed form. *)
Lemma NormalizePhoneNumber_rules (x : string) :
  whatsapp.NormalizePhoneNumber x = zero_rule (local_rule (strip x)).
Proof.
  unfold whatsapp.NormalizePhoneNumber, zero_rule, local_rule, strip.
  change "+" with (String "+"%char EmptyString).
  change " " with (String " "%char EmptyString).
  change "-" with (String "-"%char EmptyString).
  change "(" with (String "("%char EmptyString).
  change ")" with (String ")"%char EmptyString).
  rewrite !ReplaceAll_byte, !keep_bytes_twice.
  rewrite (keep_bytes_ext _ (λ c, negb (symbol c))); [done|].
  intros c. unfold symbol. rewrite !negb_orb. by rewrite !andb_assoc.
Qed.

Lemma strip_digits (s : string) : digits s = true → strip s = s.
Proof.
  intros H. apply keep_bytes_id.
  eapply all_bytes_weaken; [apply digit_not_symbol|done].
Qed.

(** Case analysis on the leading bytes of a string that is tested with
    [HasPrefix] against constants, and on its length. *)
Ltac leading_bytes :=
  repeat (simpl in *; try done; try (exfalso; lia);
    match goal with
    | H : context [Ascii.eqb ?a ?c] |- _ =>
        destruct (Ascii.eqb_spec a c) as [->|?]
    | |- context [Ascii.eqb ?a ?c] =>
        destruct (Ascii.eqb_spec a c) as [->|?]
    | H : context [match ?s with EmptyString => _ | String _ _ => _ end] |- _ =>
        is_var s; destruct s
    | |- context [match ?s with EmptyString => _ | String _ _ => _ end] =>
        is_var s; destruct s
    | H : context [Nat.eqb (String.length ?s) ?n] |- _ =>
        destruct (Nat.eqb_spec (String.length s) n)
    | |- context [Nat.eqb (String.length ?s) ?n] =>
        destruct (Nat.eqb_spec (String.length s) n)
    end).

(** Once both rules have run, neither applies again, unless the input had
    a second redundant zero. *)
Lemma rules_fixed (s : string) :
  HasPrefix s "000" && (String.length s =? 10)%nat = false →
  HasPrefix s "97200" = false →
  local_rule (zero_rule (local_rule s)) = zero_rule (local_rule s) ∧
  zero_rule (zero_rule (local_rule s)) = zero_rule (local_rule s).
Proof.
  unfold local_rule, zero_rule. intros H0 H9. leading_bytes.
Qed.

Lemma rules_all_bytes (p : ascii → bool) (s : string) :
  all_bytes p "972" = true → all_bytes p s = true →
  all_bytes p (zero_rule (local_rule s)) = true.
Proof.
  intros Hcode Hs.
  assert (∀ t n, all_bytes p t = true →
            all_bytes p ("972" +:+ slice_from n t) = true) as Hrule.
  { intros t n Ht. apply all_bytes_app; [done|by apply all_bytes_slice]. }
  unfold zero_rule, local_rule.
  destruct (HasPrefix s "0" && _);
    destruct (HasPrefix _ "9720"); auto.
Qed.

Lemma normalize_twice (x : string) :
  HasPrefix (strip x) "000" && (String.length (strip x) =? 10)%nat = false →
  HasPrefix (strip x) "97200" = false →
  whatsapp.NormalizePhoneNumber (whatsapp.NormalizePhoneNumber x) =
  whatsapp.NormalizePhoneNumber x.
Proof.
  intros H0 H9. rewrite !NormalizePhoneNumber_rules.
  assert (strip (zero_rule (local_rule (strip x))) =
          zero_rule (local_rule (strip x))) as ->.
  { apply keep_bytes_id, rules_all_bytes, keep_bytes_all. done. }
  destruct (rules_fixed _ H0 H9) as [-> ->]. done.
Qed.

(** C8. Normalising a number in canonical or near-canonical form a second
    time changes nothing. *)
Theorem normalize_idempotent (x : string) :
  near_canonical x = true →
  whatsapp.NormalizePhoneNumber (whatsapp.NormalizePhoneNumber x) =
  whatsapp.NormalizePhoneNumber x.
Proof.
  unfold near_canonical, canonical, countryCode. intros Hx.
  apply normalize_twice; destruct (strip x) as [|a d]; leading_bytes.
  all: by destruct (digits _).
Qed.

(** The result of normalising such a number is canonical. *)
Lemma normalize_canonical (x : string) :
  near_canonical x = true → canonical (whatsapp.NormalizePhoneNumber x) = true.
Proof.
  rewrite NormalizePhoneNumber_rules. unfold near_canonical.
  intros [Hd Hx]%andb_prop. unfold canonical.
  assert (digits (zero_rule (local_rule (strip x))) = true) as ->
    by (by apply rules_all_bytes).
  clear Hd.
  unfold canonical, countryCode, zero_rule, local_rule in *.
  destruct (strip x) as [|a d]; [done|].
  destruct (digits _); leading_bytes.
Qed.

(** C4, as the code has it. For a number of ten digits with a leading
    zero, the zero gives way to the country code; when the second digit is
    a zero too, the rule for a redundant zero drops that one as well. For a
    number of digits where the country code is followed by a zero, that
    zero is dropped. Both examples of the specification hold. *)
Theorem normalize_leading_zero (x : string) :
  digits x = true →
  (String.length x = 10%nat → HasPrefix x "0" = true →
   whatsapp.NormalizePhoneNumber x =
   countryCode +:+ slice_from (if HasPrefix x "00" then 2 else 1) x) ∧
  (HasPrefix x (countryCode +:+ "0") = true →
   whatsapp.NormalizePhoneNumber x = countryCode +:+ slice_from 4 x) ∧
  whatsapp.NormalizePhoneNumber "0538268277" = "972538268277" ∧
  whatsapp.NormalizePhoneNumber "9720538268277" = "972538268277".
Proof.
  intros Hd. rewrite NormalizePhoneNumber_rules, (strip_digits _ Hd).
  unfold zero_rule, local_rule, countryCode.
  split_and!; [| |done..].
  - intros Hl H0. destruct x as [|a x]; leading_bytes.
  - intros H9. destruct x as [|a x]; leading_bytes.
Qed.

(** A canonical number is left as it is. *)
Lemma normalize_canonical_id (p : string) :
  canonical p = true → whatsapp.NormalizePhoneNumber p = p.
Proof.
  unfold canonical, countryCode.
  intros [[Hd H0]%andb_prop H9]%andb_prop.
  rewrite NormalizePhoneNumber_rules, (strip_digits _ Hd).
  unfold zero_rule, local_rule.
  apply negb_true_iff in H0 as ->. simpl in H9 |- *.
  by apply negb_true_iff in H9 as ->.
Qed.

Lemma Split_before (p r : string) (sep : ascii) :
  all_bytes (λ c, negb (Ascii.eqb c sep)) p = true →
  ∃ t, Split (p +:+ String sep r) sep = p :: t.
Proof.
  induction p as [|a p IH]; simpl.
  - intros _. rewrite Ascii.eqb_refl. eauto.
  - intros [Ha Hp]%andb_prop. apply negb_true_iff in Ha as ->.
    destruct (IH Hp) as [t ->]. eauto.
Qed.

(** For a sender [p@server] with [p] canonical, the number the handler
    looks up is [p], which is also what the normalisation makes of it. *)
Lemma senderPhone_canonical (p server : string) (me : bool)
    (body : option WaMessage) :
  canonical p = true →
  handler.senderPhone
    (mkEventsMessage (mkMessageInfo (p +:+ String "@" server) me) body) = p ∧
  whatsapp.NormalizePhoneNumber p = p.
Proof.
  intros Hc. split; [|by apply normalize_canonical_id].
  unfold canonical in Hc. apply andb_prop in Hc as [[Hd _]%andb_prop _].
  unfold handler.senderPhone, first_field. simpl.
  destruct (Split_before p server "@") as [t ->].
  { eapply all_bytes_weaken; [|exact Hd].
    intros c. destruct c as [[] [] [] [] [] [] [] []]; vm_compute; congruence. }
  change "+" with (String "+"%char EmptyString).
  change " " with (String " "%char EmptyString).
  rewrite !ReplaceAll_byte, keep_bytes_twice.
  apply keep_bytes_id. eapply all_bytes_weaken; [|exact Hd].
  intros c. destruct c as [[] [] [] [] [] [] [] []]; vm_compute; congruence.
Qed.

(** ** The upsert on concrete stores *)

(** The parts of the upsert that hold in general: an existing record keeps
    its invitation date, and its status when the incoming one is
    not_invited; any other incoming status is stored. *)
Lemma AddGuest_existing_status t io guest s i g :
  first_record (PhoneNumber guest) s i g →
  ∃ g', guests (fst (AddGuest t io guest s)) !! i = Some g' ∧
        InvitedDate g' = InvitedDate g ∧
        (Status guest = RSVPNotInvited → Status g' = Status g) ∧
        (Status guest ≠ RSVPNotInvited → Status g' = Status guest).
Proof.
  intros Hf. rewrite (AddGuest_existing _ _ _ _ i g) by done.
  eexists. split.
  - apply list_lookup_insert_eq. by eapply first_record_lt.
  - simpl. case_decide; done.
Qed.

(** A new record is appended with the call time as invitation date when it
    has none, and with status pending when it has none. *)
Lemma AddGuest_new_defaults t io p n s :
  unknown p s →
  guests (fst (AddGuest t io (mkGuest p n "" zeroTime zeroTime "") s)) =
  guests s ++ [mkGuest p n RSVPPending zeroTime t ""].
Proof. intros Hu. by rewrite AddGuest_new. Qed.

(** C1, at the input where the code departs from it. Dana has accepted;
    an upsert for her phone number with the empty status stores the empty
    status: the accepted answer is not kept, and the record is left with a
    status that is none of the four values. (The insertion path does read
    the empty status as unset.) *)
Theorem AddGuest_empty_status_overwrites :
  Status Ex.dana = RSVPAccepted ∧
  guests (fst (AddGuest 200 SaveOk
                 (mkGuest "972501112222" "Dana Levi" "" zeroTime zeroTime "")
                 Ex.stored)) =
  [mkGuest "972501112222" "Dana Levi" "" zeroTime 100 ""].
Proof. split; reflexivity. Qed.

(** ** Counterexamples to the claims the code does not meet *)

(** C2 fails: from the empty store, an invitation, the reply yes and then
    the reply no take the record from pending to accepted to declined. *)
Lemma accepted_then_declined :
  let dana_says := Ex.text_from Ex.jid_of_dana in
  let w1 := fst (handler.SendInvitation Ex.config Ex.env "0501112222" "Dana"
                   Ex.empty_world) in
  let w2 := fst (Ex.HandleMessage Ex.env (dana_says "Yes, can't wait!") w1) in
  let w3 := fst (Ex.HandleMessage Ex.env (dana_says "no") w2) in
  Status <$> guests (store w1) = [RSVPPending] ∧
  Status <$> guests (store w2) = [RSVPAccepted] ∧
  Status <$> guests (store w3) = [RSVPDeclined].
Proof. vm_compute. done. Qed.

(** C3 fails: inviting Dana again, after she accepted, leaves her record
    with status pending. *)
Lemma reinvitation_forgets_answer :
  let w' := fst (handler.SendInvitation Ex.config Ex.env "0501112222" "Dana"
                   Ex.world) in
  GetGuest "972501112222" (store Ex.world) = Ok Ex.dana ∧
  Status Ex.dana = RSVPAccepted ∧
  GetGuest "972501112222" (store w') =
    Ok (mkGuest "972501112222" "Dana" RSVPPending zeroTime 100 "") ∧
  RSVPPending ≠ RSVPAccepted.
Proof. vm_compute. done. Qed.

(** C4 fails: a ten-digit number with two leading zeros loses both, so the
    result is not the country code followed by the rest of the input. *)
Lemma normalize_two_leading_zeros :
  let x := "0012345678" in
  String.length x = 10%nat ∧ digits x = true ∧ HasPrefix x "0" = true ∧
  whatsapp.NormalizePhoneNumber x = "97212345678" ∧
  whatsapp.NormalizePhoneNumber x ≠ countryCode +:+ slice_from 1 x.
Proof. vm_compute. done. Qed.

(** C7 fails for the canonicalised number: the guest invited as
    97200538268277 is stored as 9720538268277; a reply from that number is
    looked up as it comes, found, recorded and confirmed, although its
    canonical form 972538268277 has no record in the store. *)
Lemma reply_found_under_raw_number :
  let w1 := fst (handler.SendInvitation Ex.config Ex.env "97200538268277"
                   "Dana" Ex.empty_world) in
  let msg := Ex.text_from "9720538268277@s.whatsapp.net" "yes" in
  let w2 := fst (Ex.HandleMessage Ex.env msg w1) in
  keys (store w1) = ["9720538268277"] ∧
  whatsapp.NormalizePhoneNumber (handler.senderPhone msg) = "972538268277" ∧
  GetGuest (whatsapp.NormalizePhoneNumber (handler.senderPhone msg)) (store w1)
    = Err "guest not found" ∧
  Status <$> guests (store w1) = [RSVPPending] ∧
  Status <$> guests (store w2) = [RSVPAccepted] ∧
  length (outbox w1) = 1%nat ∧ length (outbox w2) = 2%nat.
Proof. vm_compute. done. Qed.

(** Outside the near-canonical forms the normalisation need not be
    idempotent: two redundant zeros take two passes. *)
Example normalize_not_idempotent_everywhere :
  whatsapp.NormalizePhoneNumber "97200538268277" = "9720538268277" ∧
  whatsapp.NormalizePhoneNumber "9720538268277" = "972538268277".
Proof. split; reflexivity. Qed.

(** ** The theorems at concrete inputs *)

Lemma SendInvitation_resets_status_witness :
  first_record (whatsapp.NormalizePhoneNumber "0501112222") (store Ex.world)
    0%nat Ex.dana ∧
  (∃ g',
     GetGuest (whatsapp.NormalizePhoneNumber "0501112222")
       (store (fst (handler.SendInvitation Ex.config Ex.env "0501112222"
                      "Dana" Ex.world))) = Ok g' ∧
     Status g' = RSVPPending ∧ InvitedDate g' = InvitedDate Ex.dana) ∧
  (∃ g',
     GetGuest (whatsapp.NormalizePhoneNumber "0501112222")
       (fst (AddGuest 200 SaveOk
               (mkGuest (whatsapp.NormalizePhoneNumber "0501112222") "Dana"
                  RSVPNotInvited 0 0 "") (store Ex.world))) = Ok g' ∧
     Status g' = Status Ex.dana ∧ InvitedDate g' = InvitedDate Ex.dana).
Proof.
  assert (first_record (whatsapp.NormalizePhoneNumber "0501112222")
            (store Ex.world) 0%nat Ex.dana) as Hf.
  { apply find_guest_first. reflexivity. }
  split; [exact Hf|].
  destruct (SendInvitation_resets_status Ex.config Ex.env "0501112222" "Dana"
              Ex.world 0%nat Ex.dana Hf) as (Hreset & Hkept).
  split; [exact Hreset|].
  apply (Hkept 200 SaveOk "Dana" 0 0 "").
Defined.

Lemma normalize_leading_zero_witness :
  digits "0538268277" = true ∧
  whatsapp.NormalizePhoneNumber "0538268277" =
  countryCode +:+ slice_from 1 "0538268277".
Proof.
  split; [reflexivity|].
  destruct (normalize_leading_zero "0538268277" eq_refl) as (Hlocal & _).
  apply Hlocal; reflexivity.
Defined.

Lemma classify_by_keywords_witness :
  let text := lowered_text ascii_ToLower ascii_TrimSpace
                (Ex.text_from Ex.jid_of_dana "  YES ") in
  keywords_found text handler.affirmative = 1%nat ∧
  keywords_found text handler.negative = 0%nat ∧
  handler.classify text = handler.Accept.
Proof.
  split; [reflexivity|]. split; [reflexivity|].
  destruct (classify_by_keywords ascii_ToLower ascii_TrimSpace Ex.config
              Ex.env (Ex.text_from Ex.jid_of_dana "  YES ") Ex.world)
    as (Haccept & _).
  apply Haccept; reflexivity.
Defined.

Lemma UpdateRSVP_unknown_phone_witness :
  unknown "972509999999" Ex.stored ∧
  UpdateRSVP 200 SaveOk "972509999999" RSVPAccepted "" Ex.stored =
  (Ex.stored, Some "guest not found").
Proof.
  assert (unknown "972509999999" Ex.stored) as Hu.
  { apply find_guest_unknown. reflexivity. }
  split; [exact Hu|].
  apply (UpdateRSVP_unknown_phone 200 SaveOk "972509999999" RSVPAccepted ""
           Ex.stored Hu).
Defined.

Lemma HandleMessage_unknown_sender_witness :
  unknown (handler.senderPhone (Ex.text_from Ex.jid_of_stranger "yes"))
    (store Ex.world) ∧
  Ex.HandleMessage Ex.env (Ex.text_from Ex.jid_of_stranger "yes") Ex.world =
  (Ex.world, None).
Proof.
  assert (unknown (handler.senderPhone (Ex.text_from Ex.jid_of_stranger "yes"))
            (store Ex.world)) as Hu.
  { apply find_guest_unknown. reflexivity. }
  split; [exact Hu|].
  apply (HandleMessage_unknown_sender ascii_ToLower ascii_TrimSpace Ex.config
           Ex.env (Ex.text_from Ex.jid_of_stranger "yes") Ex.world Hu).
Defined.

Lemma normalize_idempotent_witness :
  near_canonical "+972 (053) 826-8277" = true ∧
  whatsapp.NormalizePhoneNumber
    (whatsapp.NormalizePhoneNumber "+972 (053) 826-8277") =
  whatsapp.NormalizePhoneNumber "+972 (053) 826-8277".
Proof.
  split; [reflexivity|].
  apply (normalize_idempotent "+972 (053) 826-8277"). reflexivity.
Defined.

Lemma AddGuest_replaces_other_fields_witness :
  let guest := mkGuest "972501112222" "Dana Levi" RSVPNotInvited 0 0 "" in
  first_record (PhoneNumber guest) (store Ex.world) 0%nat Ex.dana ∧
  guests (fst (AddGuest 200 SaveOk guest (store Ex.world))) =
    [mkGuest "972501112222" "Dana Levi" RSVPAccepted 0 100 ""] ∧
  ∃ g', guests (store (fst (handler.SendInvitation Ex.config Ex.env
                              "0501112222" "Dana" Ex.world))) !! 0%nat
          = Some g' ∧
        Name g' = "Dana" ∧ RSVPDate g' = zeroTime ∧ Notes g' = "" ∧
        InvitedDate g' = InvitedDate Ex.dana.
Proof.
  intros guest.
  assert (first_record (PhoneNumber guest) (store Ex.world) 0%nat Ex.dana)
    as Hf.
  { apply find_guest_first. reflexivity. }
  split; [exact Hf|].
  destruct (AddGuest_replaces_other_fields Ex.config Ex.env guest
              "0501112222" "Dana" Ex.world 0%nat Ex.dana Hf) as (Hg & Hinv).
  split; [exact Hg|].
  apply Hinv. reflexivity.
Defined.

Lemma own_and_empty_messages_dropped_witness :
  IsFromMe (Info Ex.own_message) = true ∧
  whatsapp.handleMessage (Some (Ex.HandleMessage Ex.env)) Ex.own_message
    Ex.world = Ex.world ∧
  Message Ex.nil_message = None ∧
  whatsapp.handleMessage (Some (Ex.HandleMessage Ex.env)) Ex.nil_message
    Ex.world = Ex.world.
Proof.
  split; [reflexivity|]. split.
  - destruct (own_and_empty_messages_dropped ascii_ToLower ascii_TrimSpace
                Ex.config Ex.env Ex.own_message Ex.world) as (Hown & _).
    apply Hown. reflexivity.
  - split; [reflexivity|].
    destruct (own_and_empty_messages_dropped ascii_ToLower ascii_TrimSpace
                Ex.config Ex.env Ex.nil_message Ex.world) as (_ & Hempty).
    apply Hempty. left. reflexivity.
Defined.

(** ** More on the store: lookup after update *)

Lemma GetGuest_Ok_first phone s g :
  GetGuest phone s = Ok g ↔ ∃ i, first_record phone s i g.
Proof.
  unfold GetGuest. split.
  - destruct (find_guest phone (guests s)) as [[i h]|] eqn:Hf; [|done].
    intros [= ->]. exists i. by apply find_guest_first.
  - intros [i Hf%find_guest_first]. by rewrite Hf.
Qed.

Lemma GetGuest_Err_unknown phone s :
  GetGuest phone s = Err "guest not found" ↔ unknown phone s.
Proof.
  rewrite <- find_guest_unknown. unfold GetGuest.
  destruct (find_guest phone (guests s)) as [[i h]|]; naive_solver.
Qed.

Lemma first_record_append phone s s' g' :
  unknown phone s →
  guests s' = guests s ++ [g'] →
  PhoneNumber g' = phone →
  first_record phone s' (length (guests s)) g'.
Proof.
  intros Hu Hs' Hp. unfold first_record. rewrite Hs'. split_and!.
  - by rewrite lookup_app_r, Nat.sub_diag.
  - done.
  - intros j h Hj Hlt. rewrite lookup_app_l in Hj by done.
    apply Hu. by eapply list_elem_of_lookup_2.
Qed.

Lemma find_guest_insert_other phone gs i g g' :
  gs !! i = Some g → PhoneNumber g ≠ phone → PhoneNumber g' ≠ phone →
  find_guest phone (<[i := g']> gs) = find_guest phone gs.
Proof.
  unfold find_guest. revert i.
  induction gs as [|h gs IH]; intros [|i] Hi Hg Hg'; simpl in *; try done.
  - injection Hi as ->. by rewrite !decide_False.
  - destruct (decide (PhoneNumber h = phone)); [done|].
    by rewrite (IH i).
Qed.

Lemma find_guest_append_other phone gs g' :
  PhoneNumber g' ≠ phone →
  find_guest phone (gs ++ [g']) = find_guest phone gs.
Proof.
  unfold find_guest. intros Hg'.
  induction gs as [|h gs IH]; simpl.
  - by rewrite decide_False.
  - destruct (decide (PhoneNumber h = phone)); [done|]. by rewrite IH.
Qed.

Lemma UpdateRSVP_missing_noop t io phone status notes s :
  unknown phone s →
  fst (UpdateRSVP t io phone status notes s) = s.
Proof.
  intros H%find_guest_unknown. unfold UpdateRSVP. by rewrite H.
Qed.

Lemma known_or_unknown phone s :
  (∃ i g, first_record phone s i g) ∨ unknown phone s.
Proof.
  destruct (find_guest phone (guests s)) as [[i g]|] eqn:Hf.
  - left. exists i, g. by apply find_guest_first.
  - right. by apply find_guest_unknown.
Qed.

(** X1. Whatever the store holds and whether or not the write succeeds,
    a lookup of the phone number right after [AddGuest] finds a record with
    the phone number, name, response date and notes just given. *)
Theorem AddGuest_then_GetGuest (t : Time) (io : SaveOutcome) (guest : Guest)
    (s : Storage) :
  ∃ g', GetGuest (PhoneNumber guest) (fst (AddGuest t io guest s)) = Ok g' ∧
        PhoneNumber g' = PhoneNumber guest ∧ Name g' = Name guest ∧
        RSVPDate g' = RSVPDate guest ∧ Notes g' = Notes guest.
Proof.
  destruct (known_or_unknown (PhoneNumber guest) s) as [(i & g & Hf)|Hu].
  - eexists. split.
    + eapply GetGuest_first, first_record_insert; [exact Hf| |].
      * by apply AddGuest_existing.
      * done.
    + done.
  - eexists. split.
    + eapply GetGuest_first, first_record_append; [exact Hu| |].
      * by apply AddGuest_new.
      * done.
    + done.
Qed.

(** X2. [AddGuest] and [UpdateRSVP] for one phone number leave the lookup
    of every other phone number as it was. *)
Theorem other_phone_untouched (t : Time) (io : SaveOutcome) (guest : Guest)
    (phone other : string) (status : RSVPStatus) (notes : string)
    (s : Storage) :
  (other ≠ PhoneNumber guest →
   GetGuest other (fst (AddGuest t io guest s)) = GetGuest other s) ∧
  (other ≠ phone →
   GetGuest other (fst (UpdateRSVP t io phone status notes s)) =
   GetGuest other s).
Proof.
  split; intros Hne; unfold GetGuest.
  - destruct (known_or_unknown (PhoneNumber guest) s) as [(i & g & Hf)|Hu].
    + rewrite (AddGuest_existing _ _ _ _ i g Hf).
      destruct Hf as (Hi & Hp & _).
      rewrite (find_guest_insert_other other _ i g); [done..|congruence|done].
    + rewrite (AddGuest_new _ _ _ _ Hu).
      by rewrite find_guest_append_other.
  - destruct (known_or_unknown phone s) as [(i & g & Hf)|Hu].
    + rewrite (UpdateRSVP_existing _ _ _ _ _ _ i g Hf).
      destruct Hf as (Hi & Hp & _).
      rewrite (find_guest_insert_other other _ i g); [done..|congruence|].
      simpl. congruence.
    + by rewrite (UpdateRSVP_missing_noop t io phone status notes s Hu).
Qed.

(** ** More on the store: the collection as a whole *)

Lemma unknown_keys phone s : unknown phone s ↔ phone ∉ keys s.
Proof.
  unfold unknown, keys. rewrite list_elem_of_fmap. split.
  - intros Hu (g & Hp & Hg). by apply (Hu g).
  - intros Hout g Hg Hp. apply Hout. by exists g.
Qed.

Lemma keys_insert_same s i g g' :
  guests s !! i = Some g → PhoneNumber g' = PhoneNumber g →
  PhoneNumber <$> <[i := g']> (guests s) = keys s.
Proof.
  intros Hi Hp. unfold keys. rewrite list_fmap_insert, Hp.
  apply list_insert_id. by rewrite list_lookup_fmap, Hi.
Qed.

Lemma AddGuest_keys t io guest s :
  keys (fst (AddGuest t io guest s)) =
  if decide (PhoneNumber guest ∈ keys s) then keys s
  else keys s ++ [PhoneNumber guest].
Proof.
  destruct (known_or_unknown (PhoneNumber guest) s) as [(i & g & Hf)|Hu].
  - unfold keys at 1. rewrite (AddGuest_existing _ _ _ _ i g Hf).
    destruct Hf as (Hi & Hp & _).
    rewrite (keys_insert_same s i g) by done.
    destruct (decide (PhoneNumber guest ∈ keys s)) as [_|Hout]; [done|].
    destruct Hout. unfold keys. apply list_elem_of_fmap. exists g.
    split; [done|]. by eapply list_elem_of_lookup_2.
  - unfold keys at 1. rewrite (AddGuest_new _ _ _ _ Hu).
    destruct (decide (PhoneNumber guest ∈ keys s)) as [Hin|_].
    + by apply unknown_keys in Hu.
    + by rewrite fmap_app.
Qed.

Lemma UpdateRSVP_keys t io phone status notes s :
  keys (fst (UpdateRSVP t io phone status notes s)) = keys s.
Proof.
  destruct (known_or_unknown phone s) as [(i & g & Hf)|Hu].
  - unfold keys at 1. rewrite (UpdateRSVP_existing _ _ _ _ _ _ i g Hf).
    destruct Hf as (Hi & _). by rewrite (keys_insert_same s i g).
  - by rewrite UpdateRSVP_missing_noop.
Qed.

(** X3. The store operations never remove, reorder or re-key a record:
    [UpdateRSVP] keeps the sequence of phone numbers, [AddGuest] keeps it
    for a known phone number and appends the number otherwise. A store
    with one record per phone number stays so. *)
Theorem store_keeps_unique_keys (t : Time) (io : SaveOutcome) (guest : Guest)
    (phone : string) (status : RSVPStatus) (notes : string) (s : Storage) :
  unique_keys s →
  keys (fst (AddGuest t io guest s)) =
    (if decide (PhoneNumber guest ∈ keys s) then keys s
     else keys s ++ [PhoneNumber guest]) ∧
  keys (fst (UpdateRSVP t io phone status notes s)) = keys s ∧
  unique_keys (fst (AddGuest t io guest s)) ∧
  unique_keys (fst (UpdateRSVP t io phone status notes s)).
Proof.
  intros Hu. split_and!.
  - apply AddGuest_keys.
  - apply UpdateRSVP_keys.
  - unfold unique_keys. rewrite AddGuest_keys. case_decide; [done|].
    apply NoDup_app. split_and!; [done| |apply NoDup_singleton].
    intros x Hx ->%list_elem_of_singleton. done.
  - unfold unique_keys. by rewrite UpdateRSVP_keys.
Qed.

Lemma AddGuest_as_Save t io guest s :
  AddGuest t io guest s =
  Save io (mkStorage (guests (fst (AddGuest t SaveOk guest s))) (file s)).
Proof.
  unfold AddGuest.
  destruct (find_guest _ _) as [[i g]|]; by destruct io.
Qed.

Lemma UpdateRSVP_as_Save t io phone status notes s i g :
  first_record phone s i g →
  UpdateRSVP t io phone status notes s =
  Save io (mkStorage (guests (fst (UpdateRSVP t SaveOk phone status notes s)))
             (file s)).
Proof.
  intros Hf%find_guest_first. unfold UpdateRSVP. rewrite Hf. by destruct io.
Qed.

(** X4. The change [AddGuest] makes in memory does not depend on the fate
    of the write, on the update path and on the insertion path alike: the
    slice is the same, it holds a record for the phone number, the error
    returned is the error of the write, a failed write leaves the file as
    the file system left it, and after a successful write the file holds
    exactly the slice in memory. The same holds for [UpdateRSVP] on a
    known phone number. *)
Theorem change_applied_before_write (t : Time) (io : SaveOutcome)
    (guest : Guest) (phone : string) (status : RSVPStatus) (notes : string)
    (s : Storage) :
  let added := AddGuest t io guest s in
  let updated := UpdateRSVP t io phone status notes s in
  (guests (fst added) = guests (fst (AddGuest t SaveOk guest s)) ∧
   PhoneNumber guest ∈ keys (fst added) ∧
   snd added = save_error io ∧
   match io with
   | SaveOk => file (fst added) = Snapshot (guests (fst added))
   | SaveFails _ residue => file (fst added) = residue
   end) ∧
  ((∃ g, GetGuest phone s = Ok g) →
   guests (fst updated) =
     guests (fst (UpdateRSVP t SaveOk phone status notes s)) ∧
   snd updated = save_error io ∧
   match io with
   | SaveOk => file (fst updated) = Snapshot (guests (fst updated))
   | SaveFails _ residue => file (fst updated) = residue
   end).
Proof.
  intros added updated. subst added updated. split.
  - split_and!.
    + rewrite (AddGuest_as_Save t io). by destruct io.
    + rewrite AddGuest_keys. case_decide; [done|].
      apply elem_of_app. right. by apply list_elem_of_singleton.
    + rewrite (AddGuest_as_Save t io). by destruct io.
    + rewrite (AddGuest_as_Save t io). by destruct io.
  - intros [g [i Hf]%GetGuest_Ok_first].
    rewrite (UpdateRSVP_as_Save t io _ _ _ _ i g Hf). by destruct io.
Qed.

(** The insertion path writes in the same way. *)
Lemma AddGuest_write t io guest s :
  guests (fst (AddGuest t io guest s)) =
    guests (fst (AddGuest t SaveOk guest s)) ∧
  snd (AddGuest t io guest s) = save_error io ∧
  file (fst (AddGuest t SaveOk guest s)) =
    Snapshot (guests (fst (AddGuest t SaveOk guest s))).
Proof.
  rewrite (AddGuest_as_Save t io), (AddGuest_as_Save t SaveOk).
  by destruct io.
Qed.

Lemma UpdateRSVP_lookup t io phone status notes s g :
  GetGuest phone s = Ok g →
  GetGuest phone (fst (UpdateRSVP t io phone status notes s)) =
  Ok (mkGuest (PhoneNumber g) (Name g) status t (InvitedDate g)
        (if decide (notes ≠ "") then notes else Notes g)).
Proof.
  intros [i Hf]%GetGuest_Ok_first.
  eapply GetGuest_first, first_record_insert; [exact Hf| |].
  - by apply UpdateRSVP_existing.
  - by destruct Hf as (_ & ? & _).
Qed.

(** X5. [UpdateRSVP] on a known phone number, looked up again: the record
    has the new status and the call time as response date; its notes are
    replaced only by non-empty notes; phone number, name and invitation
    date are those it had. *)
Theorem UpdateRSVP_then_GetGuest (t : Time) (io : SaveOutcome)
    (phone : string) (status : RSVPStatus) (notes : string) (s : Storage)
    (g : Guest) :
  GetGuest phone s = Ok g →
  GetGuest phone (fst (UpdateRSVP t io phone status notes s)) =
  Ok (mkGuest (PhoneNumber g) (Name g) status t (InvitedDate g)
        (if decide (notes ≠ "") then notes else Notes g)).
Proof. apply UpdateRSVP_lookup. Qed.

Lemma unique_record s i g h :
  unique_keys s → guests s !! i = Some g → h ∈ guests s →
  PhoneNumber h = PhoneNumber g → h = g.
Proof.
  intros Hu Hi [j Hj]%list_elem_of_lookup_1 Hp.
  assert (j = i) as ->; [|congruence].
  eapply (NoDup_lookup (keys s)); [done|..]; unfold keys;
    rewrite list_lookup_fmap.
  - by rewrite Hj.
  - by rewrite Hi, Hp.
Qed.

(** X6. In a store with one record per phone number, after [UpdateRSVP]
    on a known phone number the guest is listed by [GetGuestsByStatus]
    under the new status and under no other. *)
Theorem updated_guest_listed_once (t : Time) (io : SaveOutcome)
    (phone : string) (status status' : RSVPStatus) (notes : string)
    (s : Storage) (g : Guest) :
  unique_keys s →
  GetGuest phone s = Ok g →
  (∃ h, h ∈ GetGuestsByStatus status'
              (fst (UpdateRSVP t io phone status notes s)) ∧
        PhoneNumber h = phone) ↔ status' = status.
Proof.
  intros Hu Hg.
  pose proof (UpdateRSVP_lookup t io phone status notes s g Hg) as Hg'.
  apply GetGuest_Ok_first in Hg' as [i (Hi & Hp & _)].
  assert (unique_keys (fst (UpdateRSVP t io phone status notes s))) as Hu'.
  { unfold unique_keys. by rewrite UpdateRSVP_keys. }
  unfold GetGuestsByStatus. split.
  - intros (h & [Hst Hin]%list_elem_of_filter & Hph).
    rewrite (unique_record _ i _ h Hu' Hi Hin) in Hst by congruence.
    done.
  - intros ->. eexists. split; [|exact Hp].
    apply list_elem_of_filter. split; [done|].
    by eapply list_elem_of_lookup_2.
Qed.

(** X7. [NewStorage] gives the empty store when the file is missing and
    when it is empty, without consulting the decoder; a failed read gives
    an error and no store; and whenever a store is returned it is empty or
    holds exactly what the decoder made of the whole file without error. *)
Theorem NewStorage_edges
    (Unmarshal : string → list Guest → list Guest * error)
    (fileExists : bool) (rd : ReadOutcome) (d : Disk) :
  NewStorage Unmarshal false rd d = Ok (mkStorage [] d) ∧
  NewStorage Unmarshal true (ReadData "") d = Ok (mkStorage [] d) ∧
  (∀ e, NewStorage Unmarshal true (ReadFails e) d =
        Err ("failed to load storage: failed to read file: " +:+ e)) ∧
  (∀ s, NewStorage Unmarshal fileExists rd d = Ok s →
        file s = d ∧
        (guests s = [] ∨
         ∃ data, rd = ReadData data ∧ data ≠ "" ∧
                 Unmarshal data [] = (guests s, None))).
Proof.
  split_and!; try done.
  intros s. unfold NewStorage, Load.
  destruct fileExists; [|intros [= <-]; auto].
  destruct rd as [e|data]; [done|].
  destruct data as [|c data]; simpl; [intros [= <-]; auto|].
  destruct (Unmarshal _ _) as [gs [e|]] eqn:HU; [done|].
  intros [= <-]. split; [done|]. right. eauto.
Qed.

(** ** More on the normalisation *)

(** X8. Two spellings that differ only in the symbols [+], space, [-],
    [(] and [)] normalise to the same number. *)
Theorem normalize_ignores_symbols (x y : string) :
  strip x = strip y →
  whatsapp.NormalizePhoneNumber x = whatsapp.NormalizePhoneNumber y.
Proof. intros H. by rewrite !NormalizePhoneNumber_rules, H. Qed.

Lemma strip_no_symbol (x : string) :
  all_bytes (λ c, negb (symbol c)) (strip x) = true.
Proof. apply keep_bytes_all. Qed.

(** X9. The normalised number never contains one of the five symbols, and
    when the input consists of digits and symbols only, the result
    consists of digits only. *)
Theorem normalize_output_bytes (x : string) :
  all_bytes (λ c, negb (symbol c)) (whatsapp.NormalizePhoneNumber x) = true ∧
  (digits (strip x) = true →
   digits (whatsapp.NormalizePhoneNumber x) = true).
Proof.
  rewrite NormalizePhoneNumber_rules. split.
  - apply rules_all_bytes; [done|apply strip_no_symbol].
  - intros Hd. by apply rules_all_bytes.
Qed.

(** X10. The normalisation is idempotent at [x] exactly when [x], once
    stripped, neither is a ten-byte number with three leading zeros nor
    starts with [97200]. *)
Theorem normalize_idempotent_iff (x : string) :
  whatsapp.NormalizePhoneNumber (whatsapp.NormalizePhoneNumber x) =
  whatsapp.NormalizePhoneNumber x ↔
  HasPrefix (strip x) "000" && (String.length (strip x) =? 10)%nat = false ∧
  HasPrefix (strip x) "97200" = false.
Proof.
  split; [|intros [H0 H9]; by apply normalize_twice].
  rewrite !NormalizePhoneNumber_rules.
  assert (strip (zero_rule (local_rule (strip x))) =
          zero_rule (local_rule (strip x))) as ->.
  { apply keep_bytes_id, rules_all_bytes, strip_no_symbol. done. }
  unfold zero_rule, local_rule.
  change ("972" +:+ ?t) with (String "9" (String "7" (String "2" t))).
  destruct (strip x) as [|a d]; [done|].
  intros Heq. split; leading_bytes.
  all: apply (f_equal String.length) in Heq; simpl in Heq; lia.
Qed.

(** X11. A number that starts with a zero but does not have ten digits is
    left as it is: the local rule applies to ten-digit numbers only. *)
Theorem normalize_other_lengths (x : string) :
  digits x = true → HasPrefix x "0" = true →
  String.length x ≠ 10%nat →
  whatsapp.NormalizePhoneNumber x = x.
Proof.
  intros Hd H0 Hl. rewrite NormalizePhoneNumber_rules, (strip_digits _ Hd).
  unfold zero_rule, local_rule.
  destruct x as [|a x]; leading_bytes.
Qed.

(** X12. The local spelling, the international spelling and the spelling
    with a redundant zero of one subscriber number (nine digits, the first
    not a zero) all normalise to the country code followed by it. *)
Theorem normalize_spellings_agree (r : string) :
  digits r = true → String.length r = 9%nat → HasPrefix r "0" = false →
  whatsapp.NormalizePhoneNumber ("0" +:+ r) = countryCode +:+ r ∧
  whatsapp.NormalizePhoneNumber (countryCode +:+ r) = countryCode +:+ r ∧
  whatsapp.NormalizePhoneNumber ("+" +:+ countryCode +:+ r) = countryCode +:+ r ∧
  whatsapp.NormalizePhoneNumber (countryCode +:+ "0" +:+ r) = countryCode +:+ r.
Proof.
  intros Hd Hl H0. unfold countryCode.
  assert (strip r = r) as Hs by (by apply strip_digits).
  rewrite !NormalizePhoneNumber_rules.
  change ("+" +:+ "972" +:+ r)
    with (String "+" (String "9" (String "7" (String "2" r)))).
  change ("972" +:+ "0" +:+ r)
    with (String "9" (String "7" (String "2" (String "0" r)))).
  change ("972" +:+ r) with (String "9" (String "7" (String "2" r))).
  change ("0" +:+ r) with (String "0" r).
  unfold strip in *. simpl. rewrite Hs. unfold zero_rule, local_rule.
  change ("972" +:+ ?t) with (String "9" (String "7" (String "2" t))).
  destruct r as [|a r]; leading_bytes.
Qed.

(** ** More on the classifier: what the keyword test means *)

Lemma app_cons (c : ascii) (s t : string) :
  String c s +:+ t = String c (s +:+ t).
Proof. reflexivity. Qed.

Lemma app_assoc' (a b c : string) : (a +:+ b) +:+ c = a +:+ (b +:+ c).
Proof.
  induction a as [|x a IH]; [done|]. by rewrite !app_cons, IH.
Qed.

Lemma HasPrefix_spec (s p : string) :
  HasPrefix s p = true ↔ ∃ post, s = p +:+ post.
Proof.
  revert s. induction p as [|c p IH]; intros s; simpl.
  - split; [by exists s|done].
  - destruct s as [|d s].
    + split; [done|]. by intros [post Hpost].
    + destruct (Ascii.eqb_spec d c) as [->|Hne].
      * rewrite IH. split; intros [post Hpost]; exists post.
        -- by rewrite app_cons, Hpost.
        -- rewrite app_cons in Hpost. congruence.
      * split; [done|]. intros [post Hpost].
        rewrite app_cons in Hpost. congruence.
Qed.

Lemma Contains_spec (s sub : string) :
  Contains s sub = true ↔ occurs sub s.
Proof.
  unfold occurs. split.
  - induction s as [|a s IH]; simpl.
    + rewrite orb_false_r. intros [post ->]%HasPrefix_spec. by exists "", post.
    + intros [[post ->]%HasPrefix_spec | Hs]%orb_prop.
      * by exists "", post.
      * destruct (IH Hs) as (pre & post & ->).
        by exists (String a pre), post.
  - intros (pre & post & ->).
    induction pre as [|a pre IH].
    + assert (HasPrefix ("" +:+ sub +:+ post) sub = true) as Hp
        by (apply HasPrefix_spec; by exists post).
      destruct ("" +:+ sub +:+ post); simpl in *; by rewrite Hp.
    + rewrite app_cons. simpl. rewrite IH. apply orb_true_r.
Qed.

Lemma occurs_part (a b c text : string) :
  occurs (a +:+ b +:+ c) text → occurs b text.
Proof.
  intros (pre & post & ->). exists (pre +:+ a), (c +:+ post).
  by rewrite !app_assoc'.
Qed.

Lemma Contains_part (a b c text : string) :
  Contains text (a +:+ b +:+ c) = true → Contains text b = true.
Proof. rewrite !Contains_spec. apply occurs_part. Qed.

Lemma containsAny_occurs (text : string) (keywords : list string) :
  handler.containsAny text keywords = true ↔
  ∃ k, k ∈ keywords ∧ occurs k text.
Proof.
  induction keywords as [|k ks IH]; simpl.
  - split; [done|]. by intros (k & ?%elem_of_nil & _).
  - destruct (Contains text k) eqn:Hk.
    + split; [|done]. intros _. exists k. split; [left|].
      by apply Contains_spec.
    + rewrite IH. split.
      * intros (k' & Hin & Hocc). exists k'. split; [by right|done].
      * intros (k' & [->|Hin]%elem_of_cons & Hocc).
        -- apply Contains_spec in Hocc. congruence.
        -- by exists k'.
Qed.

(** X13. [containsAny] holds exactly when the text can be cut into a
    prefix, one of the keywords, and a suffix; in particular it fails on
    the empty keyword list and holds for every text when the empty keyword
    is listed. *)
Theorem containsAny_meaning (text : string) (keywords : list string) :
  (handler.containsAny text keywords = true ↔
   ∃ k pre post, k ∈ keywords ∧ text = pre +:+ k +:+ post) ∧
  handler.containsAny text [] = false ∧
  handler.containsAny text ("" :: keywords) = true.
Proof.
  split_and!.
  - rewrite containsAny_occurs. unfold occurs. split.
    + intros (k & Hin & pre & post & Ht). by exists k, pre, post.
    + intros (k & pre & post & Hin & Ht). exists k. split; [done|].
      by exists pre, post.
  - done.
  - apply containsAny_occurs. exists "". split; [left|]. by exists "", text.
Qed.

(** X14. The classifier answers Accept exactly when some affirmative
    keyword occurs in the text, whether or not a negative one occurs too;
    Decline exactly when no affirmative and some negative keyword occurs;
    Unrecognized exactly when no keyword occurs. *)
Theorem classify_meaning (text : string) :
  (handler.classify text = handler.Accept ↔
   ∃ k, k ∈ handler.affirmative ∧ occurs k text) ∧
  (handler.classify text = handler.Decline ↔
   (¬ ∃ k, k ∈ handler.affirmative ∧ occurs k text) ∧
   ∃ k, k ∈ handler.negative ∧ occurs k text) ∧
  (handler.classify text = handler.Unrecognized ↔
   ¬ ∃ k, k ∈ handler.affirmative ++ handler.negative ∧ occurs k text).
Proof.
  rewrite <- !containsAny_occurs. unfold handler.classify.
  assert (handler.containsAny text (handler.affirmative ++ handler.negative) =
          handler.containsAny text handler.affirmative ||
          handler.containsAny text handler.negative) as ->.
  { generalize handler.affirmative as ks.
    induction ks as [|k ks IH]; simpl; [done|].
    by destruct (Contains text k). }
  destruct (handler.containsAny text handler.affirmative),
           (handler.containsAny text handler.negative); simpl;
    split_and!; split; try done; try tauto; intros []; try done; auto.
Qed.

(** X15. A text in which "not coming" occurs is classified as Accept,
    because "coming" occurs in it and the affirmative list is tried
    first; so [HandleMessage] records such a reply as accepted. *)
Theorem not_coming_is_accepted (text : string) :
  occurs "not coming" text → handler.classify text = handler.Accept.
Proof.
  intros Hocc.
  assert (Contains text "coming" = true) as Hc.
  { apply Contains_spec, (occurs_part "not " "coming" ""). exact Hocc. }
  unfold handler.classify, handler.affirmative. simpl. rewrite Hc.
  by repeat destruct (Contains text _).
Qed.

(** X16. Three keywords never change the answer, each containing another
    keyword of its list: without "accepting", "nope" and "not coming" the
    classifier is the same function. *)
Theorem redundant_keywords (text : string) :
  handler.classify text =
  classify_with
    ["yes"; "yep"; "yeah"; "accept"; "attending"; "coming"; "will come";
     "will be there"; "✅"]
    ["no"; "decline"; "declining"; "can't come"; "won't come";
     "can't make it"; "❌"]
    text.
Proof.
  pose proof (Contains_part "" "accept" "ing" text) as Haccept.
  pose proof (Contains_part "" "no" "pe" text) as Hnope.
  pose proof (Contains_part "" "no" "t coming" text) as Hnot.
  unfold handler.classify, classify_with, handler.affirmative,
    handler.negative. simpl.
  change ("" +:+ "accept" +:+ "ing") with "accepting" in Haccept.
  change ("" +:+ "no" +:+ "pe") with "nope" in Hnope.
  change ("" +:+ "no" +:+ "t coming") with "not coming" in Hnot.
  destruct (Contains text "accept"), (Contains text "accepting");
    try (by discriminate Haccept); simpl;
    destruct (Contains text "no"), (Contains text "nope");
    try (by discriminate Hnope); simpl;
    destruct (Contains text "not coming"); try (by discriminate Hnot);
    reflexivity.
Qed.

(** ** More on the messaging service *)

(** X17. [Service.SendMessage] hands at most one message to the client,
    addressed to the normalised number and carrying the given text; it
    hands over nothing when the verification fails or the number is not
    registered; and it returns no error exactly when the message went
    out. *)
Theorem SendMessage_outcomes (io : NetOutcome) (phone message : string)
    (out : list Outbound) :
  let sent := whatsapp.SendMessage io phone message out in
  (snd sent = None ↔ ∃ jid, io = Sent jid) ∧
  (fst sent = out ∨
   ∃ jid, fst sent =
          out ++ [mkOutbound (whatsapp.NormalizePhoneNumber phone) jid message]) ∧
  (io = NotOnWhatsApp ∨ (∃ e, io = VerifyError e) → fst sent = out) ∧
  (∀ jid, io = Sent jid →
     fst sent =
     out ++ [mkOutbound (whatsapp.NormalizePhoneNumber phone) jid message]).
Proof.
  unfold whatsapp.SendMessage, whatsapp.deliver.
  destruct io as [e| |jid e|jid]; simpl; split_and!;
    try (split; [done|by intros [? ?]]); eauto;
    try (by intros [?|[? ?]]); try (by intros ? [= <-]); try done.
  split; [|done]. eauto.
Qed.

(** ** More on the handler: a recognised reply *)

Lemma UpdateRSVP_frame t io phone status s i g :
  guests s !! i = Some g →
  ∃ g', guests (fst (UpdateRSVP t io phone status "" s)) !! i = Some g' ∧
        PhoneNumber g' = PhoneNumber g ∧ Name g' = Name g ∧
        InvitedDate g' = InvitedDate g ∧ Notes g' = Notes g ∧
        (g' = g ∨ (PhoneNumber g = phone ∧ RSVPDate g' = t ∧
                   Status g' = status)).
Proof.
  intros Hi.
  destruct (known_or_unknown phone s) as [(k & h & Hf)|Hu].
  - rewrite (UpdateRSVP_existing _ _ _ _ _ _ k h Hf).
    destruct (decide (k = i)) as [->|Hne].
    + rewrite list_lookup_insert_eq by (by eapply lookup_lt_Some).
      destruct Hf as (Hk & Hp & _).
      assert (h = g) as -> by congruence.
      eexists. split; [done|]. simpl. split_and!; auto.
    + rewrite list_lookup_insert_ne by done. exists g. auto 10.
  - rewrite UpdateRSVP_missing_noop by done. exists g. auto 10.
Qed.

Section Replies.

Variables ToLower TrimSpace : string -> string.

Local Abbreviation HandleMessage := (handler.HandleMessage ToLower TrimSpace).

Local Abbreviation recognised := (recognised_reply ToLower TrimSpace).

Lemma HandleMessage_recognised config env msg w g intent :
  recognised msg w g intent →
  HandleMessage config env msg w =
  let st := fst (UpdateRSVP (now env) (disk_io env) (handler.senderPhone msg)
                   (status_of intent) "" (store w)) in
  match disk_io env with
  | SaveFails m _ =>
      (mkWorld st (outbox w), Some ("failed to update RSVP: " +:+ m))
  | SaveOk =>
      let sent := whatsapp.SendMessage (net env) (handler.senderPhone msg)
                    (reply_of config intent) (outbox w) in
      (mkWorld st (fst sent),
       match snd sent with
       | Some e => Some ("failed to send confirmation: " +:+ e)
       | None => None
       end)
  end.
Proof.
  intros (Ht & Hg & Hc & Hi). unfold handler.HandleMessage.
  destruct (Message msg) as [m|] eqn:Hm; [|done].
  rewrite decide_False by done. rewrite Hg.
  unfold lowered_text in Hc. rewrite Hm in Hc. rewrite Hc.
  apply GetGuest_Ok_first in Hg as [i Hf].
  assert (∀ status,
    UpdateRSVP (now env) (disk_io env) (handler.senderPhone msg) status ""
      (store w) =
    Save (disk_io env)
      (mkStorage (guests (fst (UpdateRSVP (now env) SaveOk
                                 (handler.senderPhone msg) status ""
                                 (store w)))) (file (store w)))) as HU.
  { intros status. by apply (UpdateRSVP_as_Save _ _ _ _ _ _ i g). }
  destruct intent; [| |done]; simpl; rewrite HU;
    (destruct (disk_io env); simpl; [|done]);
    by destruct (whatsapp.SendMessage _ _ _ _) as [out [e|]].
Qed.

Lemma HandleMessage_cases config env msg w :
  HandleMessage config env msg w = (w, None) ∨
  ∃ g intent, recognised msg w g intent.
Proof.
  destruct (decide (GetConversation (Message msg) = "")) as [Ht|Ht].
  { left. by apply HandleMessage_no_text. }
  destruct (GetGuest (handler.senderPhone msg) (store w)) as [g|e] eqn:Hg.
  - destruct (handler.classify (lowered_text ToLower TrimSpace msg))
      as [| |] eqn:Hc.
    + right. by exists g, handler.Accept.
    + right. by exists g, handler.Decline.
    + left. by apply HandleMessage_unrecognized.
  - left. unfold handler.HandleMessage.
    destruct (Message msg); [|done]. rewrite decide_False by done.
    by rewrite Hg.
Qed.

(** X18. A recognised reply is recorded whatever happens to the write and
    to the confirmation: the sender's record gets the status of the
    intent and the call time as response date, and keeps its phone number,
    name, invitation date and notes. *)
Theorem reply_recorded (config : handler.Config) (env : Env)
    (msg : EventsMessage) (w : World) (g : Guest) (intent : handler.Intent) :
  recognised msg w g intent →
  GetGuest (handler.senderPhone msg)
    (store (fst (HandleMessage config env msg w))) =
  Ok (mkGuest (PhoneNumber g) (Name g) (status_of intent) (now env)
        (InvitedDate g) (Notes g)).
Proof.
  intros Hr. rewrite (HandleMessage_recognised _ _ _ _ _ _ Hr).
  destruct Hr as (_ & Hg & _).
  pose proof (UpdateRSVP_lookup (now env) (disk_io env) _ (status_of intent)
                "" _ _ Hg) as Hl.
  by destruct (disk_io env).
Qed.

(** X19. [HandleMessage] hands at most one confirmation to the client, and
    only for a recognised reply whose record was written to the file: the
    text is the one of the intent, the recipient the normalised phone
    number of the sender, and the record stored has the matching status.
    When the write fails nothing is sent. *)
Theorem confirmation_follows_write (config : handler.Config) (env : Env)
    (msg : EventsMessage) (w : World) :
  let w' := fst (HandleMessage config env msg w) in
  outbox w' = outbox w ∨
  ∃ jid intent g',
    handler.classify (lowered_text ToLower TrimSpace msg) = intent ∧
    intent ≠ handler.Unrecognized ∧
    outbox w' = outbox w ++
      [mkOutbound (whatsapp.NormalizePhoneNumber (handler.senderPhone msg))
         jid (reply_of config intent)] ∧
    disk_io env = SaveOk ∧
    file (store w') = Snapshot (guests (store w')) ∧
    GetGuest (handler.senderPhone msg) (store w') = Ok g' ∧
    Status g' = status_of intent.
Proof.
  intros w'. subst w'.
  destruct (HandleMessage_cases config env msg w) as [->|(g & intent & Hr)];
    [by left|].
  rewrite (HandleMessage_recognised _ _ _ _ _ _ Hr).
  destruct Hr as (_ & Hg & Hc & Hi).
  pose proof (UpdateRSVP_lookup (now env) (disk_io env) _ (status_of intent)
                "" _ _ Hg) as Hl.
  apply GetGuest_Ok_first in Hg as [i Hf].
  pose proof (UpdateRSVP_as_Save (now env) (disk_io env) _
                (status_of intent) "" _ i g Hf) as HS.
  destruct (disk_io env) eqn:Hio; simpl; [|by left].
  unfold whatsapp.SendMessage, whatsapp.deliver.
  destruct (net env) as [e| |jid e|jid]; simpl; [by left..| |];
    right; exists jid, intent; eexists; (split_and!; [done..| |exact Hl|done]);
    by rewrite HS.
Qed.

(** X20. For a recognised reply [HandleMessage] returns no error exactly
    when the write succeeded and the confirmation went out; for any other
    message it returns no error. *)
Theorem HandleMessage_error (config : handler.Config) (env : Env)
    (msg : EventsMessage) (w : World) (g : Guest) (intent : handler.Intent) :
  (recognised msg w g intent →
   snd (HandleMessage config env msg w) = None ↔
   disk_io env = SaveOk ∧ ∃ jid, net env = Sent jid) ∧
  ((¬ ∃ g' intent', recognised msg w g' intent') →
   HandleMessage config env msg w = (w, None)).
Proof.
  split.
  - intros Hr. rewrite (HandleMessage_recognised _ _ _ _ _ _ Hr).
    destruct (disk_io env); simpl.
    + unfold whatsapp.SendMessage, whatsapp.deliver.
      destruct (net env); simpl; split; try done; try (by intros [_ [? ?]]).
      intros _. eauto.
    + split; [done|by intros [? _]].
  - intros Hn. by destruct (HandleMessage_cases config env msg w) as [?|?].
Qed.

(** X21. [HandleMessage] never adds, removes or moves a record, and never
    changes a phone number, a name, an invitation date or notes; a record
    that changes at all is a record of the sender, with the call time as
    its response date. *)
Theorem HandleMessage_frame (config : handler.Config) (env : Env)
    (msg : EventsMessage) (w : World) (i : nat) (g : Guest) :
  guests (store w) !! i = Some g →
  let w' := fst (HandleMessage config env msg w) in
  keys (store w') = keys (store w) ∧
  ∃ g', guests (store w') !! i = Some g' ∧
        PhoneNumber g' = PhoneNumber g ∧ Name g' = Name g ∧
        InvitedDate g' = InvitedDate g ∧ Notes g' = Notes g ∧
        (g' = g ∨ (PhoneNumber g = handler.senderPhone msg ∧
                   RSVPDate g' = now env)).
Proof.
  intros Hi w'. subst w'.
  destruct (HandleMessage_store ToLower TrimSpace config env msg w)
    as [-> | (st & _ & ->)].
  - split; [done|]. exists g. auto 10.
  - split; [apply UpdateRSVP_keys|].
    destruct (UpdateRSVP_frame (now env) (disk_io env)
                (handler.senderPhone msg) st (store w) i g Hi)
      as (g' & ? & ? & ? & ? & ? & Hch).
    exists g'. split_and!; [done..|].
    destruct Hch as [->|(? & ? & _)]; auto.
Qed.

End Replies.

(** ** Status transitions through a reply *)

Section StatusChanges.

Variables ToLower TrimSpace : string -> string.

(** C2, as the code has it. [UpdateRSVP] stores the status it is given in
    the first record of the phone number, whatever status that record had.
    A recognised reply sets the status of the sender's record: accepted
    for an affirmative reply, declined for a negative one, from any
    earlier status (accepted and declined included) and whatever becomes
    of the write and of the confirmation. After [HandleMessage] every
    record is still in its place with its phone number; its status is
    unchanged, unless it is the sender's record and the reply was
    recognised. *)
Theorem reply_sets_accepted_or_declined (config : handler.Config)
    (env : Env) (msg : EventsMessage) (w : World) (i : nat)
    (g sender : Guest) (intent : handler.Intent) :
  guests (store w) !! i = Some g →
  let w' := fst (handler.HandleMessage ToLower TrimSpace config env msg w) in
  (∀ t io status notes,
     first_record (PhoneNumber g) (store w) i g →
     ∃ g', guests (fst (UpdateRSVP t io (PhoneNumber g) status notes (store w))) !! i
             = Some g' ∧ Status g' = status) ∧
  (recognised_reply ToLower TrimSpace msg w sender intent →
   ∃ g', GetGuest (handler.senderPhone msg) (store w') = Ok g' ∧
         (intent = handler.Accept → Status g' = RSVPAccepted) ∧
         (intent = handler.Decline → Status g' = RSVPDeclined)) ∧
  ∃ g', guests (store w') !! i = Some g' ∧
        PhoneNumber g' = PhoneNumber g ∧
        (Status g' = Status g ∨
         (PhoneNumber g = handler.senderPhone msg ∧
          ((handler.classify (lowered_text ToLower TrimSpace msg)
              = handler.Accept ∧ Status g' = RSVPAccepted) ∨
           (handler.classify (lowered_text ToLower TrimSpace msg)
              = handler.Decline ∧ Status g' = RSVPDeclined)))).
Proof.
  intros Hi w'. subst w'. split_and!.
  - intros t io status notes Hf.
    rewrite (UpdateRSVP_existing _ _ _ _ _ _ i g) by done.
    eexists. split.
    + apply list_lookup_insert_eq. by eapply lookup_lt_Some.
    + done.
  - intros Hr.
    rewrite (HandleMessage_recognised _ _ _ _ _ _ _ _ Hr).
    destruct Hr as (_ & Hg & _ & _).
    pose proof (UpdateRSVP_lookup (now env) (disk_io env) _
                  (status_of intent) "" _ _ Hg) as Hl.
    eexists. split; [by destruct (disk_io env)|].
    split; by intros ->.
  - destruct (HandleMessage_cases ToLower TrimSpace config env msg w)
      as [->|(g0 & intent0 & Hr)]; [by eauto|].
    rewrite (HandleMessage_recognised _ _ _ _ _ _ _ _ Hr).
    destruct Hr as (_ & _ & Hc & Hne).
    destruct (UpdateRSVP_frame (now env) (disk_io env)
                (handler.senderPhone msg) (status_of intent0) (store w)
                i g Hi) as (g' & Hg' & Hp & _ & _ & _ & Hch).
    exists g'. split; [by destruct (disk_io env)|]. split; [done|].
    destruct Hch as [->|(Hs & _ & Hst)]; [by left|right].
    split; [done|]. rewrite Hc, Hst.
    destruct intent0; [by left|by right|done].
Qed.

End StatusChanges.

(** ** More on invitations *)

Lemma SendInvitation_outcome config env phone name w :
  handler.SendInvitation config env phone name w =
  let guest := mkGuest (whatsapp.NormalizePhoneNumber phone) name RSVPPending
                 zeroTime zeroTime "" in
  let st := fst (AddGuest (now env) (disk_io env) guest (store w)) in
  match disk_io env with
  | SaveFails m _ =>
      (mkWorld st (outbox w), Some ("failed to add guest: " +:+ m))
  | SaveOk =>
      let sent := whatsapp.SendInvitation (net env) phone name
                    (handler.WeddingDate config)
                    (handler.WeddingLocation config)
                    (handler.BrideName config) (handler.GroomName config)
                    (outbox w) in
      (mkWorld st (fst sent),
       match snd sent with
       | Some e => Some ("failed to send invitation: " +:+ e)
       | None => None
       end)
  end.
Proof.
  unfold handler.SendInvitation. rewrite AddGuest_as_Save.
  destruct (disk_io env); simpl; [|done].
  by destruct (whatsapp.SendInvitation _ _ _ _ _ _ _ _) as [out [e|]].
Qed.

Lemma SendInvitation_lookup config env phone name w :
  ∃ g',
    GetGuest (whatsapp.NormalizePhoneNumber phone)
      (store (fst (handler.SendInvitation config env phone name w))) = Ok g' ∧
    PhoneNumber g' = whatsapp.NormalizePhoneNumber phone ∧
    Name g' = name ∧ Status g' = RSVPPending ∧ RSVPDate g' = zeroTime ∧
    Notes g' = "" ∧
    (unknown (whatsapp.NormalizePhoneNumber phone) (store w) →
     InvitedDate g' = now env).
Proof.
  rewrite SendInvitation_store.
  destruct (known_or_unknown (whatsapp.NormalizePhoneNumber phone) (store w))
    as [(i & g & Hf)|Hu].
  - eexists. split.
    + eapply GetGuest_first, first_record_insert; [exact Hf| |].
      * by apply AddGuest_existing.
      * done.
    + simpl. split_and!; try done.
      intros Hu. destruct Hf as (Hi & Hp & _).
      destruct (Hu g); [by eapply list_elem_of_lookup_2|done].
  - eexists. split.
    + eapply GetGuest_first, first_record_append; [exact Hu| |].
      * by apply AddGuest_new.
      * done.
    + done.
Qed.

(** X22. After [SendInvitation], whatever the store held and whatever
    became of the write and of the send, a lookup of the normalised number
    finds a record with the given name, status pending, no response date
    and no notes; for a number not known before, its invitation date is
    the call time. *)
Theorem SendInvitation_then_GetGuest (config : handler.Config) (env : Env)
    (phone name : string) (w : World) :
  ∃ g',
    GetGuest (whatsapp.NormalizePhoneNumber phone)
      (store (fst (handler.SendInvitation config env phone name w))) = Ok g' ∧
    PhoneNumber g' = whatsapp.NormalizePhoneNumber phone ∧
    Name g' = name ∧ Status g' = RSVPPending ∧ RSVPDate g' = zeroTime ∧
    Notes g' = "" ∧
    (unknown (whatsapp.NormalizePhoneNumber phone) (store w) →
     InvitedDate g' = now env).
Proof. apply SendInvitation_lookup. Qed.

(** X23. [SendInvitation] returns no error exactly when the write
    succeeded and the invitation went out. The record it stores does not
    depend on the fate of the send; when the write fails nothing is sent;
    and a message handed to the client is addressed to the normalised
    number, the one under which the guest is stored. *)
Theorem SendInvitation_outcomes (config : handler.Config) (env : Env)
    (phone name : string) (w : World) :
  let r := handler.SendInvitation config env phone name w in
  (snd r = None ↔ disk_io env = SaveOk ∧ ∃ jid, net env = Sent jid) ∧
  (∀ net', store (fst (handler.SendInvitation config
                         (mkEnv (now env) (disk_io env) net') phone name w))
           = store (fst r)) ∧
  (disk_io env ≠ SaveOk → outbox (fst r) = outbox w) ∧
  (outbox (fst r) = outbox w ∨
   ∃ jid text, outbox (fst r) =
     outbox w ++ [mkOutbound (whatsapp.NormalizePhoneNumber phone) jid text]).
Proof.
  intros r. subst r. split_and!.
  - rewrite SendInvitation_outcome. destruct (disk_io env); simpl.
    + unfold whatsapp.SendInvitation, whatsapp.deliver.
      destruct (net env); simpl; split; try done; try (by intros [_ [? ?]]).
      intros _. eauto.
    + split; [done|by intros [? _]].
  - intros net'. by rewrite !SendInvitation_store.
  - rewrite SendInvitation_outcome. by destruct (disk_io env).
  - rewrite SendInvitation_outcome. destruct (disk_io env); simpl; [|by left].
    unfold whatsapp.SendInvitation, whatsapp.deliver.
    destruct (net env); simpl; eauto.
Qed.

Lemma SendInvitation_by_number config env p q name w :
  whatsapp.NormalizePhoneNumber p = whatsapp.NormalizePhoneNumber q →
  handler.SendInvitation config env p name w =
  handler.SendInvitation config env q name w.
Proof.
  intros Hpq. unfold handler.SendInvitation, whatsapp.SendInvitation.
  by rewrite Hpq.
Qed.

Lemma cli_cleaning_redundant (p : string) :
  whatsapp.NormalizePhoneNumber
    (ReplaceAll (ReplaceAll (ReplaceAll p "+" "") " " "") "-" "") =
  whatsapp.NormalizePhoneNumber p.
Proof.
  rewrite !NormalizePhoneNumber_rules. f_equal. f_equal. unfold strip.
  change "+" with (String "+"%char EmptyString).
  change " " with (String " "%char EmptyString).
  change "-" with (String "-"%char EmptyString).
  rewrite !ReplaceAll_byte, !keep_bytes_twice.
  apply keep_bytes_ext. intros c. unfold symbol.
  by destruct (Ascii.eqb c "+"), (Ascii.eqb c " "), (Ascii.eqb c "-").
Qed.

(** X24. [SendInvitation] uses the phone number it is given only through
    its normalisation: two spellings of one number give the same store,
    the same message and the same error. Hence the clean-up of the typed
    number in the command line changes nothing: the command is
    [SendInvitation] on the trimmed lines, and does nothing when the
    scanner has no input. *)
Theorem invitation_by_normalised_number (TrimSpace : string → string)
    (config : handler.Config) (env : Env) (p q name : string)
    (nameLine phoneLine : string) (w : World) :
  (whatsapp.NormalizePhoneNumber p = whatsapp.NormalizePhoneNumber q →
   handler.SendInvitation config env p name w =
   handler.SendInvitation config env q name w) ∧
  main.sendInvitation TrimSpace config env (Some nameLine) (Some phoneLine) w =
    handler.SendInvitation config env (TrimSpace phoneLine)
      (TrimSpace nameLine) w ∧
  main.sendInvitation TrimSpace config env None (Some phoneLine) w = (w, None) ∧
  main.sendInvitation TrimSpace config env (Some nameLine) None w = (w, None).
Proof.
  split_and!; [apply SendInvitation_by_number| |done..].
  unfold main.sendInvitation.
  apply SendInvitation_by_number, cli_cleaning_redundant.
Qed.

(** ** The running program *)

Lemma well_formed_insert s s' i g g' :
  well_formed s → guests s !! i = Some g →
  guests s' = <[i := g']> (guests s) →
  PhoneNumber g' = PhoneNumber g → invited_status (Status g') →
  well_formed s'.
Proof.
  intros [Hu Hall] Hi Hs' Hp Hst. unfold well_formed, unique_keys, keys.
  rewrite Hs'. split.
  - by rewrite (keys_insert_same s i g).
  - apply Forall_insert; [done|]. split; [|done].
    rewrite Hp. by apply (Forall_lookup_1 _ _ _ _ Hall Hi).
Qed.

Lemma AddGuest_well_formed t io p name s :
  well_formed s →
  well_formed (fst (AddGuest t io
                      (mkGuest (whatsapp.NormalizePhoneNumber p) name
                         RSVPPending zeroTime zeroTime "") s)).
Proof.
  intros Hw. set (guest := mkGuest _ _ _ _ _ _).
  destruct (known_or_unknown (PhoneNumber guest) s) as [(i & g & Hf)|Hu].
  - eapply (well_formed_insert s _ i g); [done|by destruct Hf| | |].
    + by apply AddGuest_existing.
    + by destruct Hf as (_ & ? & _).
    + by left.
  - destruct Hw as [Hk Hall]. unfold well_formed, unique_keys.
    rewrite AddGuest_keys, (AddGuest_new _ _ _ _ Hu). split.
    + destruct (decide (PhoneNumber guest ∈ keys s)) as [|Hout]; [done|].
      apply NoDup_app. split_and!; [done| |apply NoDup_singleton].
      intros x Hx ->%list_elem_of_singleton. done.
    + apply Forall_app. split; [done|]. apply Forall_singleton. split.
      * simpl. rewrite NormalizePhoneNumber_rules.
        apply rules_all_bytes; [done|apply strip_no_symbol].
      * by left.
Qed.

Lemma UpdateRSVP_well_formed t io phone status notes s :
  well_formed s → invited_status status →
  well_formed (fst (UpdateRSVP t io phone status notes s)).
Proof.
  intros Hw Hst.
  destruct (known_or_unknown phone s) as [(i & g & Hf)|Hu].
  - eapply (well_formed_insert s _ i g); [done|by destruct Hf| | |].
    + by apply UpdateRSVP_existing.
    + done.
    + done.
  - by rewrite UpdateRSVP_missing_noop.
Qed.

Lemma AddGuest_keeps_records t io guest s i g :
  guests s !! i = Some g →
  ∃ g', guests (fst (AddGuest t io guest s)) !! i = Some g' ∧
        PhoneNumber g' = PhoneNumber g ∧ InvitedDate g' = InvitedDate g.
Proof.
  intros Hi.
  destruct (known_or_unknown (PhoneNumber guest) s) as [(k & h & Hf)|Hu].
  - rewrite (AddGuest_existing _ _ _ _ k h Hf).
    destruct (decide (k = i)) as [->|Hne].
    + rewrite list_lookup_insert_eq by (by eapply lookup_lt_Some).
      destruct Hf as (Hk & Hp & _). assert (h = g) as -> by congruence.
      eauto.
    + rewrite list_lookup_insert_ne by done. eauto.
  - rewrite (AddGuest_new _ _ _ _ Hu), lookup_app_l by (by eapply lookup_lt_Some).
    eauto.
Qed.

Lemma deliver_prefix io phone message out :
  out `prefix_of` fst (whatsapp.deliver io phone message out).
Proof.
  unfold whatsapp.deliver.
  destruct io; simpl; try done; by apply prefix_app_r.
Qed.

Section Running.

Variables ToLower TrimSpace : string -> string.

Local Abbreviation step := (main.step ToLower TrimSpace).
Local Abbreviation run := (main.run ToLower TrimSpace).

Lemma step_store w c :
  store (step w c) = store w ∨
  (∃ t io p name,
     store (step w c) =
     fst (AddGuest t io (mkGuest (whatsapp.NormalizePhoneNumber p) name
                           RSVPPending zeroTime zeroTime "") (store w))) ∨
  (∃ t io phone status,
     (status = RSVPAccepted ∨ status = RSVPDeclined) ∧
     store (step w c) = fst (UpdateRSVP t io phone status "" (store w))).
Proof.
  destruct c as [env [nameLine|] [phoneLine|] | env [[msg| | | |]|]];
    simpl; try by left.
  - right; left. rewrite SendInvitation_store. eauto.
  - unfold whatsapp.handleMessage.
    destruct (IsFromMe (Info msg)); [by left|]. simpl.
    destruct (HandleMessage_store ToLower TrimSpace main.handlerConfig
                env msg w) as [->|(st & Hst & ->)]; [by left|].
    right; right. eauto 10.
Qed.

Lemma step_outbox w c : outbox w `prefix_of` outbox (step w c).
Proof.
  destruct c as [env [nameLine|] [phoneLine|] | env [[msg| | | |]|]];
    simpl; try done.
  - rewrite SendInvitation_outcome. destruct (disk_io env); simpl; [|done].
    apply deliver_prefix.
  - unfold whatsapp.handleMessage.
    destruct (IsFromMe (Info msg)); [done|]. simpl.
    destruct (HandleMessage_cases ToLower TrimSpace main.handlerConfig
                env msg w) as [->|(g & intent & Hr)]; [done|].
    rewrite (HandleMessage_recognised _ _ _ _ _ _ _ _ Hr).
    destruct (disk_io env); simpl; [|done]. apply deliver_prefix.
Qed.

Lemma step_well_formed w c :
  well_formed (store w) → well_formed (store (step w c)).
Proof.
  intros Hw.
  destruct (step_store w c)
    as [->|[(t & io & p & name & ->)|(t & io & ph & st & Hst & ->)]].
  - done.
  - by apply AddGuest_well_formed.
  - apply UpdateRSVP_well_formed; [done|].
    unfold invited_status. tauto.
Qed.

(** X25. Whatever invitations the operator sends and whatever events the
    client delivers, in whatever order and with whatever failures of the
    disk and the network, the store keeps its shape: one record per phone
    number, phone numbers free of the five symbols, and every status one
    of pending, accepted and declined. *)
Theorem run_keeps_store_well_formed (calls : list main.Call) (w : World) :
  well_formed (store w) → well_formed (store (run calls w)).
Proof.
  unfold main.run. revert w.
  induction calls as [|c calls IH]; intros w Hw; simpl; [done|].
  by apply IH, step_well_formed.
Qed.

Lemma step_keeps_records w c i g :
  guests (store w) !! i = Some g →
  ∃ g', guests (store (step w c)) !! i = Some g' ∧
        PhoneNumber g' = PhoneNumber g ∧ InvitedDate g' = InvitedDate g.
Proof.
  intros Hi.
  destruct (step_store w c)
    as [->|[(t & io & p & name & ->)|(t & io & ph & st & Hst & ->)]].
  - eauto.
  - by apply AddGuest_keeps_records.
  - destruct (UpdateRSVP_frame t io ph st (store w) i g Hi)
      as (g' & ? & ? & ? & ? & _).
    eauto.
Qed.

(** X26. Nothing the running program does removes or moves a record,
    changes its phone number or changes its invitation date; and the
    messages handed to the client so far stay as they are, later ones being
    added behind them. *)
Theorem run_keeps_records (calls : list main.Call) (w : World)
    (i : nat) (g : Guest) :
  guests (store w) !! i = Some g →
  (∃ g', guests (store (run calls w)) !! i = Some g' ∧
         PhoneNumber g' = PhoneNumber g ∧ InvitedDate g' = InvitedDate g) ∧
  outbox w `prefix_of` outbox (run calls w).
Proof.
  unfold main.run. revert w g.
  induction calls as [|c calls IH]; intros w g Hi; simpl; [eauto|].
  destruct (step_keeps_records w c i g Hi) as (g1 & Hi1 & Hp1 & Hd1).
  destruct (IH _ _ Hi1) as [(g' & Hi' & Hp' & Hd') Hout].
  split.
  - exists g'. split_and!; [done|congruence..].
  - etrans; [apply step_outbox|done].
Qed.

End Running.

Lemma filter_status_lengths (gs : list Guest) :
  Forall (λ g, invited_status (Status g)) gs →
  length gs =
  (length (filter (λ g, Status g = RSVPPending) gs) +
   length (filter (λ g, Status g = RSVPAccepted) gs) +
   length (filter (λ g, Status g = RSVPDeclined) gs))%nat.
Proof.
  induction 1 as [|g gs Hg _ IH]; [done|].
  rewrite !filter_cons.
  destruct Hg as [Hg|[Hg|Hg]]; rewrite Hg;
    repeat (case_decide; try done); simpl; lia.
Qed.

(** X27. In a well-formed store the three lists the operator can ask for
    (choices 1, 2 and 3) together have as many entries as the list of all
    guests; any other choice lists nothing. *)
Theorem views_cover_all_guests (TrimSpace : string → string)
    (one two three other : string) (s : Storage) :
  well_formed s →
  TrimSpace one = "1" → TrimSpace two = "2" → TrimSpace three = "3" →
  main.statusOfChoice (TrimSpace other) = None →
  length (main.viewAllGuests s) =
    (length (main.viewGuestsByStatus TrimSpace (Some one) s) +
     length (main.viewGuestsByStatus TrimSpace (Some two) s) +
     length (main.viewGuestsByStatus TrimSpace (Some three) s))%nat ∧
  main.viewGuestsByStatus TrimSpace (Some other) s = [] ∧
  main.viewGuestsByStatus TrimSpace None s = [].
Proof.
  intros [_ Hall] H1 H2 H3 Ho. unfold main.viewGuestsByStatus.
  rewrite H1, H2, H3, Ho. simpl. split; [|done].
  unfold main.viewAllGuests, GetAllGuests, GetGuestsByStatus.
  apply filter_status_lengths.
  eapply Forall_impl; [exact Hall|]. by intros g [_ ?].
Qed.

(** ** Invitation and reply together *)

(** X28. The reply of an invited guest is matched to the invitation: after
    [SendInvitation] for a number in near-canonical form, a recognised
    reply whose sender is the normalised number at any server sets the
    status of that guest's record, under the name given at the invitation,
    with the time of the reply as response date. *)
Theorem reply_matches_invitation (ToLower TrimSpace : string → string)
    (config : handler.Config) (env1 env2 : Env) (phone name server : string)
    (me : bool) (body : option WaMessage) (w : World)
    (intent : handler.Intent) :
  near_canonical phone = true →
  let key := whatsapp.NormalizePhoneNumber phone in
  let w1 := fst (handler.SendInvitation config env1 phone name w) in
  let msg := mkEventsMessage (mkMessageInfo (key +:+ "@" +:+ server) me) body in
  GetConversation body ≠ "" →
  handler.classify (lowered_text ToLower TrimSpace msg) = intent →
  intent ≠ handler.Unrecognized →
  ∃ g', GetGuest key
          (store (fst (handler.HandleMessage ToLower TrimSpace config env2
                         msg w1))) = Ok g' ∧
        Name g' = name ∧ Status g' = status_of intent ∧
        RSVPDate g' = now env2.
Proof.
  intros Hn key w1 msg Ht Hc Hi.
  destruct (SendInvitation_lookup config env1 phone name w)
    as (g1 & Hg1 & _ & Hname & _).
  fold key w1 in Hg1.
  assert (handler.senderPhone msg = key) as Hs.
  { apply (senderPhone_canonical key server me body).
    by apply normalize_canonical. }
  assert (recognised_reply ToLower TrimSpace msg w1 g1 intent) as Hr.
  { unfold recognised_reply. by rewrite Hs. }
  rewrite (HandleMessage_recognised _ _ _ _ _ _ _ _ Hr), Hs.
  pose proof (UpdateRSVP_lookup (now env2) (disk_io env2) key
                (status_of intent) "" _ _ Hg1) as Hl.
  eexists. split; [by destruct (disk_io env2)|]. done.
Qed.

(** X29. A canonical number is left as it is by the normalisation, and a
    near-canonical number is made canonical by it. *)
Theorem canonical_numbers (x : string) :
  (canonical x = true → whatsapp.NormalizePhoneNumber x = x) ∧
  (near_canonical x = true →
   canonical (whatsapp.NormalizePhoneNumber x) = true).
Proof. split; [apply normalize_canonical_id|apply normalize_canonical]. Qed.

(** ** The configuration *)

Lemma getEnv_not_empty environ key defaultValue :
  defaultValue ≠ "" → config.getEnv environ key defaultValue ≠ "".
Proof. intros Hd. unfold config.getEnv. by case_decide. Qed.

(** X30. No field of the configuration [LoadConfig] returns is empty,
    whatever the environment holds. A variable set to the empty text
    counts as not set: [getEnv] gives the default for both, and gives the
    value of any variable set to a non-empty text. *)
Theorem LoadConfig_fields_not_empty (environ : gmap string string)
    (key value defaultValue : string) :
  let c := config.LoadConfig environ in
  (config.WhatsAppDataDir c ≠ "" ∧ config.WeddingDate c ≠ "" ∧
   config.WeddingLocation c ≠ "" ∧ config.BrideName c ≠ "" ∧
   config.GroomName c ≠ "") ∧
  config.getEnv (<[key := ""]> environ) key defaultValue = defaultValue ∧
  config.getEnv (delete key environ) key defaultValue = defaultValue ∧
  (value ≠ "" →
   config.getEnv (<[key := value]> environ) key defaultValue = value).
Proof.
  intros c. subst c. split_and!; try (by apply getEnv_not_empty).
  - unfold config.getEnv, config.Getenv. by rewrite lookup_insert_eq.
  - unfold config.getEnv, config.Getenv. by rewrite lookup_delete_eq.
  - intros Hv. unfold config.getEnv, config.Getenv.
    rewrite lookup_insert_eq. simpl. by rewrite decide_True.
Qed.

(** ** The further theorems at concrete inputs *)

Lemma store_keeps_unique_keys_witness :
  unique_keys Ex.stored ∧
  unique_keys (fst (AddGuest 200 SaveOk
                      (mkGuest "972509999999" "Noa" "" 0 0 "") Ex.stored)) ∧
  unique_keys (fst (UpdateRSVP 200 SaveOk "972501112222" RSVPDeclined ""
                      Ex.stored)).
Proof.
  assert (unique_keys Ex.stored) as Hu by apply NoDup_singleton.
  split; [exact Hu|].
  destruct (store_keeps_unique_keys 200 SaveOk
              (mkGuest "972509999999" "Noa" "" 0 0 "") "972501112222"
              RSVPDeclined "" Ex.stored Hu) as (_ & _ & Ha & Hr).
  split; [exact Ha|exact Hr].
Defined.

Lemma change_applied_before_write_witness :
  let guest := mkGuest "972509999999" "Noa" "" 0 0 "" in
  let added := AddGuest 200 (SaveFails "disk full" Torn) guest Ex.stored in
  unknown (PhoneNumber guest) Ex.stored ∧
  guests (fst added) = guests (fst (AddGuest 200 SaveOk guest Ex.stored)) ∧
  PhoneNumber guest ∈ keys (fst added) ∧
  snd added = Some "disk full" ∧ file (fst added) = Torn.
Proof.
  intros guest added. subst added.
  split; [apply find_guest_unknown; reflexivity|].
  destruct (change_applied_before_write 200 (SaveFails "disk full" Torn)
              guest "972501112222" RSVPDeclined "" Ex.stored)
    as ((Hg & Hk & He & Hfile) & _).
  split; [exact Hg|]. split; [exact Hk|]. split; [exact He|exact Hfile].
Defined.

Lemma UpdateRSVP_then_GetGuest_witness :
  GetGuest "972501112222" Ex.stored = Ok Ex.dana ∧
  GetGuest "972501112222"
    (fst (UpdateRSVP 200 SaveOk "972501112222" RSVPDeclined "" Ex.stored)) =
  Ok (mkGuest "972501112222" "Dana" RSVPDeclined 200 100 "vegetarian").
Proof.
  split; [reflexivity|].
  apply (UpdateRSVP_then_GetGuest 200 SaveOk "972501112222" RSVPDeclined ""
           Ex.stored Ex.dana).
  reflexivity.
Defined.

Lemma updated_guest_listed_once_witness :
  unique_keys Ex.stored ∧
  GetGuest "972501112222" Ex.stored = Ok Ex.dana ∧
  ((∃ h, h ∈ GetGuestsByStatus RSVPAccepted
               (fst (UpdateRSVP 200 SaveOk "972501112222" RSVPDeclined ""
                       Ex.stored)) ∧
         PhoneNumber h = "972501112222") ↔ RSVPAccepted = RSVPDeclined).
Proof.
  assert (unique_keys Ex.stored) as Hu by apply NoDup_singleton.
  split; [exact Hu|]. split; [reflexivity|].
  apply (updated_guest_listed_once 200 SaveOk "972501112222" RSVPDeclined
           RSVPAccepted "" Ex.stored Ex.dana Hu).
  reflexivity.
Defined.

Lemma normalize_ignores_symbols_witness :
  strip "+972 (50) 111-2222" = strip "972501112222" ∧
  whatsapp.NormalizePhoneNumber "+972 (50) 111-2222" =
  whatsapp.NormalizePhoneNumber "972501112222".
Proof.
  split; [reflexivity|].
  apply (normalize_ignores_symbols "+972 (50) 111-2222" "972501112222").
  reflexivity.
Defined.

Lemma normalize_other_lengths_witness :
  digits "035551234" = true ∧ HasPrefix "035551234" "0" = true ∧
  String.length "035551234" ≠ 10%nat ∧
  whatsapp.NormalizePhoneNumber "035551234" = "035551234".
Proof.
  split; [reflexivity|]. split; [reflexivity|].
  assert (String.length "035551234" ≠ 10%nat) as Hl by (simpl; lia).
  split; [exact Hl|].
  apply (normalize_other_lengths "035551234" eq_refl eq_refl Hl).
Defined.

Lemma normalize_spellings_agree_witness :
  digits "501112222" = true ∧
  whatsapp.NormalizePhoneNumber ("0" +:+ "501112222") =
    countryCode +:+ "501112222" ∧
  whatsapp.NormalizePhoneNumber ("+" +:+ countryCode +:+ "501112222") =
    countryCode +:+ "501112222".
Proof.
  split; [reflexivity|].
  destruct (normalize_spellings_agree "501112222" eq_refl eq_refl eq_refl)
    as (Hlocal & _ & Hplus & _).
  split; [exact Hlocal|exact Hplus].
Defined.

Lemma not_coming_is_accepted_witness :
  occurs "not coming" "sorry, not coming" ∧
  handler.classify "sorry, not coming" = handler.Accept.
Proof.
  assert (occurs "not coming" "sorry, not coming") as Ho.
  { exists "sorry, ", "". reflexivity. }
  split; [exact Ho|].
  apply (not_coming_is_accepted "sorry, not coming" Ho).
Defined.

Lemma reply_recorded_witness :
  let msg := Ex.text_from Ex.jid_of_dana "Sorry, I can't come" in
  recognised_reply ascii_ToLower ascii_TrimSpace msg Ex.world Ex.dana
    handler.Decline ∧
  GetGuest (handler.senderPhone msg)
    (store (fst (Ex.HandleMessage
                   (mkEnv 300 (SaveFails "disk full" Torn) NotOnWhatsApp)
                   msg Ex.world))) =
  Ok (mkGuest "972501112222" "Dana" RSVPDeclined 300 100 "vegetarian").
Proof.
  intros msg.
  assert (recognised_reply ascii_ToLower ascii_TrimSpace msg Ex.world Ex.dana
            handler.Decline) as Hr.
  { split_and!; [discriminate|reflexivity|reflexivity|discriminate]. }
  split; [exact Hr|].
  apply (reply_recorded ascii_ToLower ascii_TrimSpace Ex.config
           (mkEnv 300 (SaveFails "disk full" Torn) NotOnWhatsApp)
           msg Ex.world Ex.dana handler.Decline Hr).
Defined.

Lemma HandleMessage_frame_witness :
  let msg := Ex.text_from Ex.jid_of_dana "no" in
  guests (store Ex.world) !! 0%nat = Some Ex.dana ∧
  keys (store (fst (Ex.HandleMessage Ex.env msg Ex.world))) =
    keys (store Ex.world).
Proof.
  intros msg. split; [reflexivity|].
  destruct (HandleMessage_frame ascii_ToLower ascii_TrimSpace Ex.config
              Ex.env msg Ex.world 0%nat Ex.dana eq_refl) as (Hk & _).
  exact Hk.
Defined.

Lemma run_keeps_store_well_formed_witness :
  let calls :=
    [main.Invite Ex.env (Some " Dana ") (Some "+972 50-111-2222");
     main.Deliver Ex.env
       (Some (EvMessage (Ex.text_from Ex.jid_of_dana "YES")));
     main.Invite (mkEnv 400 (SaveFails "disk full" Torn) NotOnWhatsApp)
       (Some "Noa") (Some "0509999999");
     main.Deliver Ex.env None] in
  well_formed (store Ex.empty_world) ∧
  well_formed (store (main.run ascii_ToLower ascii_TrimSpace calls
                        Ex.empty_world)).
Proof.
  intros calls.
  assert (well_formed (store Ex.empty_world)) as Hw.
  { split; [apply NoDup_nil_2|apply Forall_nil_2]. }
  split; [exact Hw|].
  apply (run_keeps_store_well_formed ascii_ToLower ascii_TrimSpace calls
           Ex.empty_world Hw).
Defined.

Lemma run_keeps_records_witness :
  let calls :=
    [main.Invite Ex.env (Some "Dana L.") (Some "050 111 2222");
     main.Deliver Ex.env
       (Some (EvMessage (Ex.text_from Ex.jid_of_dana "nope")))] in
  guests (store Ex.world) !! 0%nat = Some Ex.dana ∧
  ∃ g', guests (store (main.run ascii_ToLower ascii_TrimSpace calls Ex.world))
          !! 0%nat = Some g' ∧
        PhoneNumber g' = PhoneNumber Ex.dana ∧
        InvitedDate g' = InvitedDate Ex.dana.
Proof.
  intros calls. split; [reflexivity|].
  destruct (run_keeps_records ascii_ToLower ascii_TrimSpace calls Ex.world
              0%nat Ex.dana eq_refl) as (Hrec & _).
  exact Hrec.
Defined.

Lemma views_cover_all_guests_witness :
  well_formed Ex.stored ∧
  length (main.viewAllGuests Ex.stored) =
    (length (main.viewGuestsByStatus ascii_TrimSpace (Some " 1") Ex.stored) +
     length (main.viewGuestsByStatus ascii_TrimSpace (Some "2 ") Ex.stored) +
     length (main.viewGuestsByStatus ascii_TrimSpace (Some "3") Ex.stored))%nat.
Proof.
  assert (well_formed Ex.stored) as Hw.
  { split; [apply NoDup_singleton|].
    apply Forall_singleton. split; [reflexivity|]. right. left. reflexivity. }
  split; [exact Hw|].
  destruct (views_cover_all_guests ascii_TrimSpace " 1" "2 " "3" "4"
              Ex.stored Hw eq_refl eq_refl eq_refl eq_refl) as (Hlen & _).
  exact Hlen.
Defined.

Lemma reply_matches_invitation_witness :
  near_canonical "050-111-2222" = true ∧
  ∃ g', GetGuest (whatsapp.NormalizePhoneNumber "050-111-2222")
          (store (fst (Ex.HandleMessage (mkEnv 300 SaveOk NotOnWhatsApp)
                         (Ex.text_from Ex.jid_of_dana "Yes!")
                         (fst (handler.SendInvitation Ex.config Ex.env
                                 "050-111-2222" "Dana" Ex.empty_world)))))
          = Ok g' ∧
        Name g' = "Dana" ∧ Status g' = status_of handler.Accept ∧
        RSVPDate g' = 300.
Proof.
  split; [reflexivity|].
  apply (reply_matches_invitation ascii_ToLower ascii_TrimSpace Ex.config
           Ex.env (mkEnv 300 SaveOk NotOnWhatsApp) "050-111-2222" "Dana"
           "s.whatsapp.net" false (Some (mkWaMessage (Some "Yes!")))
           Ex.empty_world handler.Accept);
    [reflexivity|discriminate|reflexivity|discriminate].
Defined.

Lemma reply_sets_accepted_or_declined_witness :
  let msg := Ex.text_from Ex.jid_of_dana "no" in
  let w' := fst (Ex.HandleMessage Ex.env msg Ex.world) in
  guests (store Ex.world) !! 0%nat = Some Ex.dana ∧
  Status Ex.dana = RSVPAccepted ∧
  recognised_reply ascii_ToLower ascii_TrimSpace msg Ex.world Ex.dana
    handler.Decline ∧
  ∃ g', GetGuest (handler.senderPhone msg) (store w') = Ok g' ∧
        (handler.Decline = handler.Accept → Status g' = RSVPAccepted) ∧
        (handler.Decline = handler.Decline → Status g' = RSVPDeclined).
Proof.
  intros msg w'. subst w'.
  assert (recognised_reply ascii_ToLower ascii_TrimSpace msg Ex.world Ex.dana
            handler.Decline) as Hr.
  { split_and!; [discriminate|reflexivity|reflexivity|discriminate]. }
  split; [reflexivity|]. split; [reflexivity|]. split; [exact Hr|].
  destruct (reply_sets_accepted_or_declined ascii_ToLower ascii_TrimSpace
              Ex.config Ex.env msg Ex.world 0%nat Ex.dana Ex.dana
              handler.Decline eq_refl) as (_ & Hset & _).
  apply Hset. exact Hr.
Defined.
